(** * University timetable: slot catalog, constraint validator, schedule generator

    A shallow embedding of [services/scheduler.py] (class [TimetableScheduler])
    over a model of the relational store declared in
    [models/database_models.py].

    - Integer columns are [Z]; a nullable column is [option Z] ([None] is SQL
      NULL / Python [None]).  Primary keys of rows that the scheduler only
      reads are [Z]; the two classes the scheduler instantiates itself
      ([TimeSlot], [TimetableEntry]) carry [option Z] ids, which are [None]
      until the session flushes them.
    - [datetime.time(h, m)] is the record [time].
    - A table is the list of its rows in the order a query returns them.
    - [random.choice] reads from an injected sequence of draws.
    - An exception is a [Raise] result. *)

From stdpp Require Import gmap strings list pretty.
From Stdlib Require Import ZArith Lia.

Local Open Scope Z_scope.

(** ** Values *)

Record time := mk_time { hour : Z; minute : Z }.

#[global] Instance time_eq_dec : EqDecision time.
Proof. solve_decision. Defined.

#[global] Instance time_countable : Countable time.
Proof.
  refine (inj_countable' (λ t, (hour t, minute t)) (λ p, mk_time p.1 p.2) _).
  by intros [].
Defined.

(** ** Rows of [models/database_models.py] *)

Record School := {
  school_id : Z;
  school_name : string;
  school_code : string }.

Record Department := {
  department_id : Z;
  department_name : string;
  department_code : string;
  department_school_id : option Z }.

Record Room := {
  room_id : Z;
  room_name : string;
  room_capacity : Z;
  room_type : string }.

Record Lecturer := {
  lecturer_id : Z;
  lecturer_name : string;
  lecturer_employee_id : string;
  lecturer_employment_type : string;
  lecturer_max_units : Z }.

(** [requires_lab] is only ever tested for truthiness, where NULL behaves as
    [False]; it is a [bool] here. *)
Record Unit := {
  unit_id : Z;
  unit_name : string;
  unit_code : string;
  unit_department_id : option Z;
  unit_year_level : Z;
  unit_semester : Z;
  unit_requires_lab : bool;
  unit_lecturer_id : option Z }.

Record StudentGroup := {
  sg_id : Z;
  sg_department_id : option Z;
  sg_year_level : Z;
  sg_group_size : Z }.

Record TimeSlot := {
  ts_id : option Z;
  ts_day_of_week : Z;
  ts_start_time : time;
  ts_end_time : time;
  ts_session_type : string }.

Record TimetableEntry := {
  te_id : option Z;
  te_unit_id : option Z;
  te_lecturer_id : option Z;
  te_room_id : option Z;
  te_time_slot_id : option Z;
  te_student_group_id : option Z;
  te_week_type : option string }.

#[global] Instance TimeSlot_eq_dec : EqDecision TimeSlot.
Proof. solve_decision. Defined.

#[global] Instance TimetableEntry_eq_dec : EqDecision TimetableEntry.
Proof. solve_decision. Defined.

(** ** The store

    One list per table, plus the two serial counters from which the store
    draws the primary keys of inserted time slots and timetable entries. *)

Record DB := {
  db_schools : list School;
  db_departments : list Department;
  db_rooms : list Room;
  db_lecturers : list Lecturer;
  db_units : list Unit;
  db_student_groups : list StudentGroup;
  db_time_slots : list TimeSlot;
  db_timetable_entries : list TimetableEntry;
  db_time_slot_seq : Z;
  db_timetable_entry_seq : Z }.

(** [primary_key=True]: no two rows of a table share an id. *)
Definition primary_keys (db : DB) : Prop :=
  NoDup (school_id <$> db_schools db) ∧
  NoDup (department_id <$> db_departments db) ∧
  NoDup (room_id <$> db_rooms db) ∧
  NoDup (lecturer_id <$> db_lecturers db) ∧
  NoDup (unit_id <$> db_units db) ∧
  NoDup (sg_id <$> db_student_groups db) ∧
  NoDup (ts_id <$> db_time_slots db) ∧
  NoDup (te_id <$> db_timetable_entries db).

#[global] Instance primary_keys_dec db : Decision (primary_keys db).
Proof. unfold primary_keys. apply _. Defined.

(** [query(C).filter(C.id == v).first()]: comparing with [None] is
    [IS NULL], which no primary key satisfies. *)
Definition first_unit (db : DB) (v : option Z) : option Unit :=
  head (filter (λ u, Some (unit_id u) = v) (db_units db)).

Definition first_room (db : DB) (v : option Z) : option Room :=
  head (filter (λ r, Some (room_id r) = v) (db_rooms db)).

Definition first_department (db : DB) (v : option Z) : option Department :=
  head (filter (λ d, Some (department_id d) = v) (db_departments db)).

Definition first_school (db : DB) (v : option Z) : option School :=
  head (filter (λ s, Some (school_id s) = v) (db_schools db)).

(** [query(StudentGroup).filter(department_id == d, year_level == y).first()];
    a NULL department matches the groups whose department is NULL. *)
Definition first_student_group (db : DB) (d : option Z) (y : Z)
  : option StudentGroup :=
  head (filter (λ g, sg_department_id g = d ∧ sg_year_level g = y)
               (db_student_groups db)).

(** [db.add_all(time_slots); db.commit()]: each new row takes the next value
    of the serial counter, in list order. *)
Fixpoint flush_time_slots (next : Z) (l : list TimeSlot) : list TimeSlot :=
  match l with
  | [] => []
  | s :: l' =>
      {| ts_id := Some next;
         ts_day_of_week := ts_day_of_week s;
         ts_start_time := ts_start_time s;
         ts_end_time := ts_end_time s;
         ts_session_type := ts_session_type s |}
      :: flush_time_slots (next + 1) l'
  end.

Definition add_all_time_slots (db : DB) (l : list TimeSlot)
  : list TimeSlot * DB :=
  let rows := flush_time_slots (db_time_slot_seq db) l in
  (rows,
   {| db_schools := db_schools db;
      db_departments := db_departments db;
      db_rooms := db_rooms db;
      db_lecturers := db_lecturers db;
      db_units := db_units db;
      db_student_groups := db_student_groups db;
      db_time_slots := db_time_slots db ++ rows;
      db_timetable_entries := db_timetable_entries db;
      db_time_slot_seq := db_time_slot_seq db + Z.of_nat (length l);
      db_timetable_entry_seq := db_timetable_entry_seq db |}).

(** The same for timetable entries; the column default fills [week_type]. *)
Fixpoint flush_entries (next : Z) (l : list TimetableEntry)
  : list TimetableEntry :=
  match l with
  | [] => []
  | e :: l' =>
      {| te_id := Some next;
         te_unit_id := te_unit_id e;
         te_lecturer_id := te_lecturer_id e;
         te_room_id := te_room_id e;
         te_time_slot_id := te_time_slot_id e;
         te_student_group_id := te_student_group_id e;
         te_week_type := Some (default "all" (te_week_type e)) |}
      :: flush_entries (next + 1) l'
  end.

Definition add_all_entries (db : DB) (l : list TimetableEntry)
  : list TimetableEntry * DB :=
  let rows := flush_entries (db_timetable_entry_seq db) l in
  (rows,
   {| db_schools := db_schools db;
      db_departments := db_departments db;
      db_rooms := db_rooms db;
      db_lecturers := db_lecturers db;
      db_units := db_units db;
      db_student_groups := db_student_groups db;
      db_time_slots := db_time_slots db;
      db_timetable_entries := db_timetable_entries db ++ rows;
      db_time_slot_seq := db_time_slot_seq db;
      db_timetable_entry_seq :=
        db_timetable_entry_seq db + Z.of_nat (length l) |}).

(** ** [generate_time_slots] *)

Definition spas_sessions : list (time * time) :=
  [ (mk_time 7 0, mk_time 10 0);
    (mk_time 10 30, mk_time 13 30);
    (mk_time 14 0, mk_time 17 0);
    (mk_time 16 0, mk_time 19 0) ].

Definition shs_sessions : list (time * time) :=
  [ (mk_time 7 0, mk_time 9 0);
    (mk_time 9 0, mk_time 11 0);
    (mk_time 11 0, mk_time 13 0);
    (mk_time 14 0, mk_time 16 0);
    (mk_time 16 0, mk_time 18 0);
    (mk_time 17 0, mk_time 19 0) ].

(** [DBTimeSlot(day_of_week=day, start_time=start, end_time=end,
    session_type=ty)] *)
Definition new_time_slot (day : Z) (ty : string) (se : time * time)
  : TimeSlot :=
  {| ts_id := None; ts_day_of_week := day;
     ts_start_time := se.1; ts_end_time := se.2; ts_session_type := ty |}.

(** One pass of the body of [for day in range(1, 6)]. *)
Definition day_time_slots (day : Z) : list TimeSlot :=
  (new_time_slot day "spas_3h" <$> spas_sessions)
  ++ (new_time_slot day "shs_2h" <$> shs_sessions).

Definition built_time_slots : list TimeSlot :=
  concat (day_time_slots <$> [1; 2; 3; 4; 5]).

Definition generate_time_slots (db : DB) : list TimeSlot * DB :=
  add_all_time_slots db built_time_slots.

(** ** [validate_constraints] *)

Record ValidationResult := {
  is_valid : bool;
  conflicts : list string;
  warnings : list string }.

(** [f"{v}"] for the value of a nullable integer column. *)
Definition py_str (v : option Z) : string :=
  match v with
  | Some z => pretty z
  | None => "None"
  end.

(** [slot_bookings[slot_id].append(entry)] on a [defaultdict(list)]; the
    dictionary keeps its keys in the order of their first insertion, which is
    the order [.items()] later walks them in. *)
Fixpoint bookings_append (k : option Z) (e : TimetableEntry)
    (d : list (option Z * list TimetableEntry))
  : list (option Z * list TimetableEntry) :=
  match d with
  | [] => [(k, [e])]
  | (k', es) :: d' =>
      if decide (k' = k) then (k', es ++ [e]) :: d'
      else (k', es) :: bookings_append k e d'
  end.

Definition slot_bookings (timetable_entries : list TimetableEntry)
  : list (option Z * list TimetableEntry) :=
  foldl (λ d e, bookings_append (te_time_slot_id e) e d) [] timetable_entries.

(** [len(set(xs)) != len(xs)] *)
Definition has_duplicates (xs : list (option Z)) : bool :=
  negb (bool_decide (size (list_to_set xs : gset (option Z)) = length xs)).

(** The three checks made for one item of [slot_bookings.items()]. *)
Definition double_booking_conflicts
    (item : option Z * list TimetableEntry) : list string :=
  let slot_id := item.1 in
  let entries := item.2 in
  let lecturers := te_lecturer_id <$> entries in
  let rooms := te_room_id <$> entries in
  let students := te_student_group_id <$> entries in
  (if has_duplicates lecturers
   then ["Lecturer double-booked in time slot " +:+ py_str slot_id] else [])
  ++ (if has_duplicates rooms
      then ["Room double-booked in time slot " +:+ py_str slot_id] else [])
  ++ (if has_duplicates students
      then ["Student group double-booked in time slot " +:+ py_str slot_id]
      else []).

(** The body of the second loop, for one entry. *)
Definition lab_conflicts (db : DB) (entry : TimetableEntry) : list string :=
  match first_unit db (te_unit_id entry), first_room db (te_room_id entry) with
  | Some unit, Some room =>
      if unit_requires_lab unit && negb (bool_decide (room_type room = "lab"))
      then ["Lab unit " +:+ unit_code unit
            +:+ " assigned to non-lab room " +:+ room_name room]
      else []
  | _, _ => []
  end.

(** The dictionaries [lecturer_bookings], [student_bookings] and
    [room_bookings] are filled by the source but never read; they are left
    out. *)
Definition validate_constraints (db : DB)
    (timetable_entries : list TimetableEntry) : ValidationResult :=
  let conflicts :=
    (slot_bookings timetable_entries ≫= double_booking_conflicts)
    ++ (timetable_entries ≫= lab_conflicts db) in
  {| is_valid := bool_decide (length conflicts = 0%nat);
     conflicts := conflicts;
     warnings := [] |}.

(** ** [generate_schedule] *)

Inductive exn := AttributeError | KeyError | IndexError.

Inductive result (A : Type) :=
  | Ok (a : A)
  | Raise (e : exn).
Arguments Ok {A} a.
Arguments Raise {A} e.

#[global] Instance result_ret : MRet result := λ A a, Ok a.

#[global] Instance result_bind : MBind result := λ A B f m,
  match m with
  | Ok a => f a
  | Raise e => Raise e
  end.

(** [random.choice(seq)] on the draw [r]: the element at an index below
    [len(seq)], [IndexError] on an empty sequence. *)
Definition choice {A} (seq : list A) (r : nat) : result A :=
  match seq !! (r `mod` length seq)%nat with
  | Some x => Ok x
  | None => Raise IndexError
  end.

(** [self.day_names] *)
Definition day_names : gmap Z string :=
  list_to_map [(1, "Monday"); (2, "Tuesday"); (3, "Wednesday");
               (4, "Thursday"); (5, "Friday")].

(** [(slot.day_of_week, slot.start_time)] *)
Definition slot_key (slot : TimeSlot) : Z * time :=
  (ts_day_of_week slot, ts_start_time slot).

(** The locals a run mutates: the three [defaultdict(set)] indexes, the
    result list, and how many draws have been consumed. *)
Record Tracking := {
  lecturer_schedule : gmap (option Z) (gset (Z * time));
  room_schedule : gmap Z (gset (Z * time));
  student_schedule : gmap Z (gset (Z * time));
  timetable_entries : list TimetableEntry;
  rng_pos : nat }.

Definition initial_tracking : Tracking :=
  {| lecturer_schedule := ∅; room_schedule := ∅; student_schedule := ∅;
     timetable_entries := []; rng_pos := 0 |}.

(** What the run prints about one unit. *)
Inductive UnitReport :=
  | NoStudentGroup
  | NoSuitableRooms
  | NoTimeSlots
  | Scheduled (attempts : nat)
  | CouldNotSchedule (attempts : nat).

(** [sorted(units, key=lambda u: (not u.requires_lab, u.year_level))]:
    tuples compare lexicographically, [False < True], and the sort is
    stable. *)
Definition priority (u : Unit) : bool * Z :=
  (negb (unit_requires_lab u), unit_year_level u).

Definition priority_lt (a b : bool * Z) : bool :=
  (negb a.1 && b.1) || (bool_decide (a.1 = b.1) && bool_decide (a.2 < b.2)).

Fixpoint insert_unit (u : Unit) (l : list Unit) : list Unit :=
  match l with
  | [] => [u]
  | v :: l' =>
      if priority_lt (priority v) (priority u) then v :: insert_unit u l'
      else u :: v :: l'
  end.

Fixpoint sorted (units : list Unit) : list Unit :=
  match units with
  | [] => []
  | u :: units' => insert_unit u (sorted units')
  end.

(** [DBTimetableEntry(unit_id=..., lecturer_id=..., room_id=...,
    time_slot_id=..., student_group_id=...)] *)
Definition new_entry (unit : Unit) (room : Room) (slot : TimeSlot)
    (student_group : StudentGroup) : TimetableEntry :=
  {| te_id := None;
     te_unit_id := Some (unit_id unit);
     te_lecturer_id := unit_lecturer_id unit;
     te_room_id := Some (room_id room);
     te_time_slot_id := ts_id slot;
     te_student_group_id := Some (sg_id student_group);
     te_week_type := None |}.

Definition draw2 (st : Tracking) : Tracking :=
  {| lecturer_schedule := lecturer_schedule st;
     room_schedule := room_schedule st;
     student_schedule := student_schedule st;
     timetable_entries := timetable_entries st;
     rng_pos := S (S (rng_pos st)) |}.

(** The committing branch: append the entry, add the key to the three
    indexes. *)
Definition commit (unit : Unit) (room : Room) (slot : TimeSlot)
    (student_group : StudentGroup) (st : Tracking) : Tracking :=
  let k := slot_key slot in
  {| lecturer_schedule :=
       <[unit_lecturer_id unit :=
           {[k]} ∪ lecturer_schedule st !!! unit_lecturer_id unit]>
         (lecturer_schedule st);
     room_schedule :=
       <[room_id room := {[k]} ∪ room_schedule st !!! room_id room]>
         (room_schedule st);
     student_schedule :=
       <[sg_id student_group :=
           {[k]} ∪ student_schedule st !!! sg_id student_group]>
         (student_schedule st);
     timetable_entries :=
       timetable_entries st ++ [new_entry unit room slot student_group];
     rng_pos := rng_pos st |}.

(** The test made on a drawn pair. *)
Definition conflict (unit : Unit) (room : Room) (slot : TimeSlot)
    (student_group : StudentGroup) (st : Tracking) : bool :=
  let k := slot_key slot in
  let lecturer_conflict :=
    bool_decide (k ∈ lecturer_schedule st !!! unit_lecturer_id unit) in
  let room_conflict :=
    bool_decide (k ∈ room_schedule st !!! room_id room) in
  let student_conflict :=
    bool_decide (k ∈ student_schedule st !!! sg_id student_group) in
  lecturer_conflict || room_conflict || student_conflict.

(** [while not scheduled and attempts < max_attempts], by recursion on
    [remaining = max_attempts - attempts].  The result is
    [(scheduled, attempts, state)].  The success message indexes
    [self.day_names] with the slot's day. *)
Fixpoint place (draws : nat → nat) (unit : Unit) (student_group : StudentGroup)
    (available_slots : list TimeSlot) (suitable_rooms : list Room)
    (remaining attempts : nat) (st : Tracking)
  : result (bool * nat * Tracking) :=
  match remaining with
  | O => Ok (false, attempts, st)
  | S remaining' =>
      slot ← choice available_slots (draws (rng_pos st));
      room ← choice suitable_rooms (draws (S (rng_pos st)));
      let st := draw2 st in
      if negb (conflict unit room slot student_group st) then
        match day_names !! ts_day_of_week slot with
        | Some _ =>
            Ok (true, S attempts, commit unit room slot student_group st)
        | None => Raise KeyError
        end
      else
        place draws unit student_group available_slots suitable_rooms
              remaining' (S attempts) st
  end.

(** The body of [for i, unit in enumerate(sorted_units)].  [dept.school_id]
    and [school.code] are attribute reads on the result of [.first()]. *)
Definition schedule_unit (draws : nat → nat) (db : DB) (rooms : list Room)
    (time_slots : list TimeSlot) (unit : Unit) (st : Tracking)
  : result (Tracking * UnitReport) :=
  match first_student_group db (unit_department_id unit)
                            (unit_year_level unit) with
  | None => Ok (st, NoStudentGroup)
  | Some student_group =>
      dept ← from_option Ok (Raise AttributeError)
               (first_department db (unit_department_id unit));
      school ← from_option Ok (Raise AttributeError)
                 (first_school db (department_school_id dept));
      let session_type :=
        if bool_decide (school_code school = "SPAS")
        then "spas_3h" else "shs_2h" in
      let suitable_rooms :=
        if unit_requires_lab unit
        then filter (λ r, room_type r = "lab") rooms
        else filter (λ r, room_type r = "normal") rooms in
      match suitable_rooms with
      | [] => Ok (st, NoSuitableRooms)
      | _ :: _ =>
          let available_slots :=
            filter (λ ts, ts_session_type ts = session_type) time_slots in
          match available_slots with
          | [] => Ok (st, NoTimeSlots)
          | _ :: _ =>
              let max_attempts :=
                (100 `min` (length available_slots * length suitable_rooms))%nat
              in
              '(scheduled, attempts, st') ←
                place draws unit student_group available_slots suitable_rooms
                      max_attempts 0 st;
              Ok (st', if scheduled : bool then Scheduled attempts
                       else CouldNotSchedule attempts)
          end
      end
  end.

Fixpoint schedule_units (draws : nat → nat) (db : DB) (rooms : list Room)
    (time_slots : list TimeSlot) (sorted_units : list Unit) (st : Tracking)
    (log : list UnitReport) : result (Tracking * list UnitReport) :=
  match sorted_units with
  | [] => Ok (st, log)
  | unit :: rest =>
      '(st', report) ← schedule_unit draws db rooms time_slots unit st;
      schedule_units draws db rooms time_slots rest st' (log ++ [report])
  end.

(** The list [lecturers] and the dictionary [lecturer_units] are computed by
    the source but never read; they are left out.  The result is the returned
    list, the store after the commit, and the per-unit reports. *)
Definition generate_schedule (draws : nat → nat) (db : DB)
  : result (list TimetableEntry * DB * list UnitReport) :=
  let units := db_units db in
  let rooms := db_rooms db in
  let time_slots := db_time_slots db in
  match units, time_slots, rooms with
  | [], _, _ => Ok ([], db, [])
  | _, [], _ => Ok ([], db, [])
  | _, _, [] => Ok ([], db, [])
  | _, _, _ =>
      '(st, log) ← schedule_units draws db rooms time_slots (sorted units)
                     initial_tracking [];
      let '(entries, db') := add_all_entries db (timetable_entries st) in
      Ok (entries, db', log)
  end.

(** * Vocabulary of the statements *)

(** What a slot says apart from its store-assigned id. *)
Definition catalog_row (s : TimeSlot) : Z * time * time * string :=
  (ts_day_of_week s, ts_start_time s, ts_end_time s, ts_session_type s).

Definition count_slots (day : Z) (ty : string) (l : list TimeSlot) : nat :=
  length (filter (λ s, ts_day_of_week s = day ∧ ts_session_type s = ty) l).

(** The entries of a list that reference the slot id [k], in list order. *)
Definition at_slot (k : option Z) (l : list TimetableEntry)
  : list TimetableEntry :=
  filter (λ e, te_time_slot_id e = k) l.

(** No slot of the list carries a lecturer, a room or a student group twice. *)
Definition no_double_booking (l : list TimetableEntry) : Prop :=
  ∀ k, NoDup (te_lecturer_id <$> at_slot k l) ∧
       NoDup (te_room_id <$> at_slot k l) ∧
       NoDup (te_student_group_id <$> at_slot k l).

(** An entry is dangling when its unit or its room is not in the store. *)
Definition dangling (db : DB) (e : TimetableEntry) : Prop :=
  first_unit db (te_unit_id e) = None ∨ first_room db (te_room_id e) = None.

Definition same_indexes (st st' : Tracking) : Prop :=
  lecturer_schedule st' = lecturer_schedule st ∧
  room_schedule st' = room_schedule st ∧
  student_schedule st' = student_schedule st.

(** The five references an entry holds. *)
Definition booking (e : TimetableEntry)
  : option Z * option Z * option Z * option Z * option Z :=
  (te_unit_id e, te_lecturer_id e, te_room_id e, te_time_slot_id e,
   te_student_group_id e).

(** An entry of the run: it was built from a unit, a room of the unit's
    kind, a slot and a group of the store, and the slot's key is recorded
    against its lecturer, its room and its group. *)
Definition entry_sound (db : DB) (st : Tracking) (e : TimetableEntry)
  : Prop :=
  ∃ u r s g,
    u ∈ db_units db ∧ r ∈ db_rooms db ∧ s ∈ db_time_slots db ∧
    booking e = booking (new_entry u r s g) ∧
    room_type r = (if unit_requires_lab u then "lab" else "normal") ∧
    slot_key s ∈ lecturer_schedule st !!! unit_lecturer_id u ∧
    slot_key s ∈ room_schedule st !!! room_id r ∧
    slot_key s ∈ student_schedule st !!! sg_id g.

Definition tracking_inv (db : DB) (st : Tracking) : Prop :=
  Forall (entry_sound db st) (timetable_entries st) ∧
  no_double_booking (timetable_entries st).

Definition empty_db : DB :=
  {| db_schools := []; db_departments := []; db_rooms := [];
     db_lecturers := []; db_units := []; db_student_groups := [];
     db_time_slots := []; db_timetable_entries := [];
     db_time_slot_seq := 1; db_timetable_entry_seq := 1 |}.

(** A store in which the only department has no school ([school_id] NULL):
    one unit of that department, its student group, a room and a slot. *)
Definition schoolless_db : DB :=
  {| db_schools := [];
     db_departments :=
       [ {| department_id := 1; department_name := "Computing";
            department_code := "COMP"; department_school_id := None |} ];
     db_rooms :=
       [ {| room_id := 1; room_name := "LH1"; room_capacity := 40;
            room_type := "normal" |} ];
     db_lecturers :=
       [ {| lecturer_id := 7; lecturer_name := "Ada Byron";
            lecturer_employee_id := "EMP007";
            lecturer_employment_type := "full_time";
            lecturer_max_units := 4 |} ];
     db_units :=
       [ {| unit_id := 1; unit_name := "Algorithms"; unit_code := "COMP101";
            unit_department_id := Some 1; unit_year_level := 1;
            unit_semester := 1; unit_requires_lab := false;
            unit_lecturer_id := Some 7 |} ];
     db_student_groups :=
       [ {| sg_id := 1; sg_department_id := Some 1; sg_year_level := 1;
            sg_group_size := 30 |} ];
     db_time_slots :=
       [ {| ts_id := Some 1; ts_day_of_week := 1;
            ts_start_time := mk_time 7 0; ts_end_time := mk_time 9 0;
            ts_session_type := "shs_2h" |} ];
     db_timetable_entries := [];
     db_time_slot_seq := 2;
     db_timetable_entry_seq := 1 |}.

(** The store of the examples below: a department of the school with code
    SPAS, a lab unit and a lecture unit of the same lecturer and group, a lab
    and a lecture hall, two long slots and one short slot. *)
Definition demo_db : DB :=
  {| db_schools :=
       [ {| school_id := 1; school_name := "Pure and Applied Sciences";
            school_code := "SPAS" |} ];
     db_departments :=
       [ {| department_id := 1; department_name := "Computing";
            department_code := "COMP"; department_school_id := Some 1 |} ];
     db_rooms :=
       [ {| room_id := 1; room_name := "LH1"; room_capacity := 40;
            room_type := "normal" |};
         {| room_id := 2; room_name := "LAB1"; room_capacity := 30;
            room_type := "lab" |} ];
     db_lecturers :=
       [ {| lecturer_id := 7; lecturer_name := "Ada Byron";
            lecturer_employee_id := "EMP007";
            lecturer_employment_type := "full_time";
            lecturer_max_units := 4 |} ];
     db_units :=
       [ {| unit_id := 1; unit_name := "Algorithms"; unit_code := "COMP101";
            unit_department_id := Some 1; unit_year_level := 1;
            unit_semester := 1; unit_requires_lab := false;
            unit_lecturer_id := Some 7 |};
         {| unit_id := 2; unit_name := "Programming"; unit_code := "COMP102";
            unit_department_id := Some 1; unit_year_level := 1;
            unit_semester := 1; unit_requires_lab := true;
            unit_lecturer_id := Some 7 |} ];
     db_student_groups :=
       [ {| sg_id := 1; sg_department_id := Some 1; sg_year_level := 1;
            sg_group_size := 30 |} ];
     db_time_slots :=
       [ {| ts_id := Some 1; ts_day_of_week := 1;
            ts_start_time := mk_time 7 0; ts_end_time := mk_time 10 0;
            ts_session_type := "spas_3h" |};
         {| ts_id := Some 2; ts_day_of_week := 1;
            ts_start_time := mk_time 7 0; ts_end_time := mk_time 9 0;
            ts_session_type := "shs_2h" |};
         {| ts_id := Some 3; ts_day_of_week := 1;
            ts_start_time := mk_time 10 30; ts_end_time := mk_time 13 30;
            ts_session_type := "spas_3h" |} ];
     db_timetable_entries := [];
     db_time_slot_seq := 4;
     db_timetable_entry_seq := 1 |}.

(** Every draw is 0 except the fifth, so the second unit first draws the slot
    the first unit took. *)
Definition demo_draws (n : nat) : nat := if (n =? 4)%nat then 1%nat else 0%nat.

(** Every unit that has a student group has a department with a school. *)
Definition schools_resolve (db : DB) : Prop :=
  ∀ u, u ∈ db_units db →
    is_Some (first_student_group db (unit_department_id u)
                                 (unit_year_level u)) →
    ∃ dept school,
      first_department db (unit_department_id u) = Some dept ∧
      first_school db (department_school_id dept) = Some school.

(** [CheckConstraint("day_of_week BETWEEN 1 AND 5")] *)
Definition days_in_week (db : DB) : Prop :=
  ∀ s, s ∈ db_time_slots db → 1 ≤ ts_day_of_week s ≤ 5.

(** Two entries of [demo_db] that put lecturer 7 in slot 3 twice, in
    different rooms and for different groups. *)
Definition clash_a : TimetableEntry :=
  {| te_id := Some 1; te_unit_id := Some 1; te_lecturer_id := Some 7;
     te_room_id := Some 1; te_time_slot_id := Some 3;
     te_student_group_id := Some 1; te_week_type := Some "all" |}.

Definition clash_b : TimetableEntry :=
  {| te_id := Some 2; te_unit_id := Some 2; te_lecturer_id := Some 7;
     te_room_id := Some 2; te_time_slot_id := Some 3;
     te_student_group_id := Some 2; te_week_type := Some "all" |}.

(** Substring test, for statements about what a message mentions. *)
Fixpoint mentions (needle hay : string) : bool :=
  String.prefix needle hay
  || match hay with
     | EmptyString => false
     | String _ hay' => mentions needle hay'
     end.

(** * Further code and vocabulary

    Lookups used by the endpoints of [main.py], and the vocabulary of the
    further statements about the scheduler. *)

(** [query(DBTimeSlot).filter(DBTimeSlot.id == v).first()] *)
Definition first_time_slot (db : DB) (v : option Z) : option TimeSlot :=
  head (filter (λ s, ts_id s = v) (db_time_slots db)).

(** [query(DBLecturer).filter(DBLecturer.id == v).first()] *)
Definition first_lecturer (db : DB) (v : option Z) : option Lecturer :=
  head (filter (λ l, Some (lecturer_id l) = v) (db_lecturers db)).

(** The entry passes the lab check: if its unit and its room are in the
    store and the unit requires a lab, the room is a lab. *)
Definition lab_ok (db : DB) (e : TimetableEntry) : Prop :=
  ∀ unit room,
    first_unit db (te_unit_id e) = Some unit →
    first_room db (te_room_id e) = Some room →
    unit_requires_lab unit = true → room_type room = "lab".

(** Two entries with no room and no slot (both NULL), of different lecturers
    and groups. *)
Definition roomless_a : TimetableEntry :=
  {| te_id := Some 1; te_unit_id := Some 1; te_lecturer_id := Some 7;
     te_room_id := None; te_time_slot_id := None;
     te_student_group_id := Some 1; te_week_type := Some "all" |}.

Definition roomless_b : TimetableEntry :=
  {| te_id := Some 2; te_unit_id := Some 2; te_lecturer_id := Some 8;
     te_room_id := None; te_time_slot_id := None;
     te_student_group_id := Some 2; te_week_type := Some "all" |}.

(** The lab unit of [demo_db] booked into its lecture hall. *)
Definition lab_in_hall : TimetableEntry :=
  {| te_id := Some 1; te_unit_id := Some 2; te_lecturer_id := Some 7;
     te_room_id := Some 1; te_time_slot_id := Some 1;
     te_student_group_id := Some 1; te_week_type := Some "all" |}.

(** The states a run of [generate_schedule] goes through: it starts from
    empty indexes, a failed trial only consumes two draws, and a commit is
    made for a unit of the store with its student group, a room of the kind
    the unit needs, and a weekday slot of its school's profile whose key is
    free. *)
Inductive run_state (db : DB) : Tracking → Prop :=
  | run_initial : run_state db initial_tracking
  | run_draw st : run_state db st → run_state db (draw2 st)
  | run_commit st unit room slot sg dept school :
      run_state db st →
      unit ∈ db_units db → room ∈ db_rooms db → slot ∈ db_time_slots db →
      first_student_group db (unit_department_id unit) (unit_year_level unit)
        = Some sg →
      first_department db (unit_department_id unit) = Some dept →
      first_school db (department_school_id dept) = Some school →
      room_type room = (if unit_requires_lab unit then "lab" else "normal") →
      ts_session_type slot
        = (if bool_decide (school_code school = "SPAS")
           then "spas_3h" else "shs_2h") →
      1 ≤ ts_day_of_week slot ≤ 5 →
      conflict unit room slot sg st = false →
      run_state db (commit unit room slot sg st).

(** The number of [Scheduled] reports of a log. *)
Definition is_scheduled (r : UnitReport) : bool :=
  match r with
  | Scheduled _ => true
  | _ => false
  end.

Definition scheduled_count (log : list UnitReport) : nat :=
  length (filter (λ r, is_scheduled r = true) log).

(** Existing ids lie below the serial counters, so that the next inserted row
    gets a fresh id. *)
Definition serials_ahead (db : DB) : Prop :=
  (∀ s id, s ∈ db_time_slots db → ts_id s = Some id →
           id < db_time_slot_seq db) ∧
  (∀ e id, e ∈ db_timetable_entries db → te_id e = Some id →
           id < db_timetable_entry_seq db).

(** [u] does not come after [v] in priority: its key
    [(not requires_lab, year_level)] is not greater. *)
Definition priority_le (u v : Unit) : Prop :=
  priority_lt (priority v) (priority u) = false.

Fixpoint priority_sorted (l : list Unit) : Prop :=
  match l with
  | [] => True
  | u :: l' => Forall (priority_le u) l' ∧ priority_sorted l'
  end.

(** Two lecture units, the second-year one listed first. *)
Definition year_mix : list Unit :=
  [ {| unit_id := 5; unit_name := "Databases"; unit_code := "COMP205";
       unit_department_id := Some 1; unit_year_level := 2;
       unit_semester := 1; unit_requires_lab := false;
       unit_lecturer_id := Some 7 |};
    {| unit_id := 6; unit_name := "Logic"; unit_code := "COMP106";
       unit_department_id := Some 1; unit_year_level := 1;
       unit_semester := 2; unit_requires_lab := false;
       unit_lecturer_id := Some 7 |} ].

(** Where an entry of a run comes from: a unit of the store, its student
    group, its department's school, a room of the kind the unit needs and a
    weekday slot of the school's profile, whose key the three indexes hold. *)
Definition entry_origin (db : DB) (st : Tracking) (e : TimetableEntry)
  : Prop :=
  ∃ unit room slot sg dept school,
    unit ∈ db_units db ∧ room ∈ db_rooms db ∧ slot ∈ db_time_slots db ∧
    booking e = booking (new_entry unit room slot sg) ∧
    first_student_group db (unit_department_id unit) (unit_year_level unit)
      = Some sg ∧
    first_department db (unit_department_id unit) = Some dept ∧
    first_school db (department_school_id dept) = Some school ∧
    room_type room = (if unit_requires_lab unit then "lab" else "normal") ∧
    ts_session_type slot
      = (if bool_decide (school_code school = "SPAS")
         then "spas_3h" else "shs_2h") ∧
    1 ≤ ts_day_of_week slot ≤ 5 ∧
    slot_key slot ∈ lecturer_schedule st !!! unit_lecturer_id unit ∧
    slot_key slot ∈ room_schedule st !!! room_id room ∧
    slot_key slot ∈ student_schedule st !!! sg_id sg.

(** Two entries that share a lecturer, a room or a student group. *)
Definition share_resource (e1 e2 : TimetableEntry) : Prop :=
  te_lecturer_id e1 = te_lecturer_id e2 ∨
  te_room_id e1 = te_room_id e2 ∨
  te_student_group_id e1 = te_student_group_id e2.

(** ** Endpoints of [main.py]

    Each endpoint runs in a session of its own and wraps its body in
    [try: ... except Exception as e: raise HTTPException(500, str(e))].  An
    answer is the body of the 200 response or the failure behind the 500;
    the store is the one the session leaves.  The store is taken to satisfy
    its foreign keys, and to refuse, with an integrity error, a [DELETE] of
    rows that rows of another table still reference. *)

Inductive failure :=
  | PythonError (e : exn)
  | IntegrityError.

Inductive response (A : Type) :=
  | Http200 (body : A)
  | Http500 (detail : failure).
Arguments Http200 {A} body.
Arguments Http500 {A} detail.

(** [db.query(DBTimetableEntry).delete(); db.commit()] *)
Definition delete_timetable_entries (db : DB) : DB :=
  {| db_schools := db_schools db;
     db_departments := db_departments db;
     db_rooms := db_rooms db;
     db_lecturers := db_lecturers db;
     db_units := db_units db;
     db_student_groups := db_student_groups db;
     db_time_slots := db_time_slots db;
     db_timetable_entries := [];
     db_time_slot_seq := db_time_slot_seq db;
     db_timetable_entry_seq := db_timetable_entry_seq db |}.

Record GenerateResponse := {
  gen_message : string;
  gen_entries_count : nat }.

(** [POST /api/timetable/generate] *)
Definition generate_timetable (draws : nat → nat) (db : DB)
  : response GenerateResponse * DB :=
  let db := delete_timetable_entries db in
  match generate_schedule draws db with
  | Ok (entries, db', _) =>
      (Http200
         {| gen_message :=
              "Timetable generated successfully with "
              +:+ pretty (length entries) +:+ " entries";
            gen_entries_count := length entries |},
       db')
  | Raise e => (Http500 (PythonError e), db)
  end.

(** [GET /api/timetable/validate] *)
Definition validate_timetable (db : DB) : response ValidationResult :=
  let entries := db_timetable_entries db in
  Http200 (validate_constraints db entries).

(** A timetable entry holds the id of a time-slot row. *)
Definition references_time_slot (db : DB) (e : TimetableEntry) : bool :=
  match te_time_slot_id e with
  | Some id => bool_decide (Some id ∈ ts_id <$> db_time_slots db)
  | None => false
  end.

Record RegenerateResponse := {
  regen_message : string;
  regen_time_slots_count : nat }.

(** [POST /api/debug/regenerate-time-slots]: the [DELETE] of the time slots
    fails when a timetable entry references one of them, and the session is
    then closed without a commit. *)
Definition regenerate_time_slots (db : DB)
  : response RegenerateResponse * DB :=
  if existsb (references_time_slot db) (db_timetable_entries db)
  then (Http500 IntegrityError, db)
  else
    let db1 :=
      {| db_schools := db_schools db;
         db_departments := db_departments db;
         db_rooms := db_rooms db;
         db_lecturers := db_lecturers db;
         db_units := db_units db;
         db_student_groups := db_student_groups db;
         db_time_slots := [];
         db_timetable_entries := db_timetable_entries db;
         db_time_slot_seq := db_time_slot_seq db;
         db_timetable_entry_seq := db_timetable_entry_seq db |} in
    let '(time_slots, db2) := generate_time_slots db1 in
    (Http200
       {| regen_message :=
            "Generated " +:+ pretty (length time_slots) +:+ " time slots";
          regen_time_slots_count := length time_slots |},
     db2).

(** [f"{n:02d}"] *)
Definition pad2 (n : Z) : string :=
  if bool_decide (0 ≤ n < 10) then "0" +:+ pretty n else pretty n.

(** [str(t)] for a [datetime.time] without seconds: [HH:MM:00]. *)
Definition time_str (t : time) : string :=
  pad2 (hour t) +:+ ":" +:+ pad2 (minute t) +:+ ":00".

(** One item of the list [GET /api/timetable/conflicts] answers with. *)
Record LecturerConflict := {
  lc_type : string;
  lc_day : string;
  lc_time : string;
  lc_lecturer : string;
  lc_conflicting_units : list string }.

(** Filling a [defaultdict(list)] keyed by [key(entry)], entry by entry. *)
Definition group_entries (key : TimetableEntry → option Z)
    (entries : list TimetableEntry)
  : list (option Z * list TimetableEntry) :=
  foldl (λ d e, bookings_append (key e) e d) [] entries.

(** [[db.query(DBUnit).filter(DBUnit.id == e.unit_id).first().name
      for e in conflicting_entries]] *)
Fixpoint conflicting_unit_names (db : DB) (l : list TimetableEntry)
  : result (list string) :=
  match l with
  | [] => Ok []
  | e :: l' =>
      unit ← from_option Ok (Raise AttributeError)
               (first_unit db (te_unit_id e));
      names ← conflicting_unit_names db l';
      Ok (unit_name unit :: names)
  end.

(** The body of [for lecturer_id, conflicting_entries in
    lecturer_conflicts.items()]: the dictionary display reads
    [time_slot.day_of_week], [lecturer.name] and the unit names, in that
    order. *)
Definition lecturer_conflict_item (db : DB) (time_slot : option TimeSlot)
    (item : option Z * list TimetableEntry)
  : result (list LecturerConflict) :=
  let lecturer_id := item.1 in
  let conflicting_entries := item.2 in
  if bool_decide (1 < length conflicting_entries)%nat then
    let lecturer := first_lecturer db lecturer_id in
    time_slot ← from_option Ok (Raise AttributeError) time_slot;
    day ← from_option Ok (Raise KeyError)
            (day_names !! ts_day_of_week time_slot);
    lecturer ← from_option Ok (Raise AttributeError) lecturer;
    names ← conflicting_unit_names db conflicting_entries;
    Ok [ {| lc_type := "lecturer_conflict";
            lc_day := day;
            lc_time := time_str (ts_start_time time_slot) +:+ " - "
                       +:+ time_str (ts_end_time time_slot);
            lc_lecturer := lecturer_name lecturer;
            lc_conflicting_units := names |} ]
  else Ok [].

(** Running a loop body over the items in order, collecting what each
    appends; the first exception ends the loop. *)
Fixpoint collect {A B} (f : A → result (list B)) (l : list A)
  : result (list B) :=
  match l with
  | [] => Ok []
  | x :: l' =>
      xs ← f x;
      ys ← collect f l';
      Ok (xs ++ ys)
  end.

(** The body of [for slot_id, slot_entries in slot_groups.items()]. *)
Definition slot_conflicts (db : DB) (item : option Z * list TimetableEntry)
  : result (list LecturerConflict) :=
  let slot_id := item.1 in
  let slot_entries := item.2 in
  if bool_decide (1 < length slot_entries)%nat then
    let time_slot := first_time_slot db slot_id in
    let lecturers := te_lecturer_id <$> slot_entries in
    if has_duplicates lecturers then
      let lecturer_conflicts := group_entries te_lecturer_id slot_entries in
      collect (lecturer_conflict_item db time_slot) lecturer_conflicts
    else Ok []
  else Ok [].

(** [GET /api/timetable/conflicts] *)
Definition get_conflicts (db : DB) : response (list LecturerConflict) :=
  let entries := db_timetable_entries db in
  let slot_groups := group_entries te_time_slot_id entries in
  match collect (slot_conflicts db) slot_groups with
  | Ok conflicts => Http200 conflicts
  | Raise e => Http500 (PythonError e)
  end.

(** [demo_db] with lecturer 7 booked twice in slot 3. *)
Definition clash_db : DB :=
  {| db_schools := db_schools demo_db;
     db_departments := db_departments demo_db;
     db_rooms := db_rooms demo_db;
     db_lecturers := db_lecturers demo_db;
     db_units := db_units demo_db;
     db_student_groups := db_student_groups demo_db;
     db_time_slots := db_time_slots demo_db;
     db_timetable_entries := [clash_a; clash_b];
     db_time_slot_seq := 4;
     db_timetable_entry_seq := 3 |}.

(** ** The sample-data generator, [services/data_generator.py]

    The generator fills six tables whose primary keys are serial; [Store]
    adds their counters to the tables.  A row under construction is a
    function of the id it will get; the flush numbers the pending rows in
    the order they were added.  The columns [phone] and [email] of a
    lecturer, which no code reads, are not part of [Lecturer]; the draw made
    for the phone number is consumed all the same.  Every call of the
    [random] module reads the next element of the injected sequence of
    draws. *)

Record Store := {
  store_db : DB;
  school_seq : Z;
  department_seq : Z;
  room_seq : Z;
  lecturer_seq : Z;
  unit_seq : Z;
  student_group_seq : Z }.

Inductive outcome (A : Type) :=
  | Done (a : A)
  | Failed (e : failure).
Arguments Done {A} a.
Arguments Failed {A} e.

#[global] Instance outcome_ret : MRet outcome := λ A a, Done a.

#[global] Instance outcome_bind : MBind outcome := λ A B f m,
  match m with
  | Done a => f a
  | Failed e => Failed e
  end.

Fixpoint number_rows {A} (next : Z) (pending : list (Z → A)) : list A :=
  match pending with
  | [] => []
  | row :: pending' => row next :: number_rows (next + 1) pending'
  end.

(** [random.randint(a, b)]: [a] plus a number below [b - a + 1]. *)
Definition randint (draws : nat → nat) (pos : nat) (a b : Z) : Z :=
  a + Z.of_nat (draws pos `mod` Z.to_nat (b - a + 1)).

(** [random.random() < x], where [random()] is [k / 2^53] for the drawn
    53-bit [k] and [threshold] is the least [k] with [k / 2^53 >= x]. *)
Definition random_below (draws : nat → nat) (pos : nat) (threshold : Z)
  : bool :=
  bool_decide (Z.of_nat (draws pos) `mod` 2 ^ 53 < threshold).

(** [0.4] is the double [3602879701896397 / 2^53]; [0.2] is the double
    [3602879701896397 / 2^54]. *)
Definition threshold_0_4 : Z := 3602879701896397.
Definition threshold_0_2 : Z := 1801439850948199.

(** [f"{n:03d}"] for a number that is not negative. *)
Definition pad3 (n : nat) : string :=
  if bool_decide (n < 10)%nat then "00" +:+ pretty n
  else if bool_decide (n < 100)%nat then "0" +:+ pretty n
  else pretty n.

(** [x[i], x[j] = x[j], x[i]] *)
Definition swap (x : list string) (i j : nat) : list string :=
  match x !! i, x !! j with
  | Some a, Some b => <[j := a]> (<[i := b]> x)
  | _, _ => x
  end.

(** [random.shuffle(x)]:
    [for i in reversed(range(1, len(x))): j = randbelow(i + 1); swap]. *)
Fixpoint shuffle_from (draws : nat → nat) (pos : nat) (i : nat)
    (x : list string) : list string * nat :=
  match i with
  | O => (x, pos)
  | S i' =>
      let j := (draws pos `mod` S i)%nat in
      shuffle_from draws (S pos) i' (swap x i j)
  end.

Definition shuffle (draws : nat → nat) (pos : nat) (x : list string)
  : list string * nat :=
  shuffle_from draws pos (length x - 1) x.

Definition kenyan_names : list string :=
  [ "Wanjiku Kamau"; "Otieno Ochieng"; "Njoroge Mwangi"; "Akinyi Adhiambo";
    "Kipchoge Rotich"; "Nyambura Kariuki"; "Omondi Owino"; "Wanjiru Ndungu";
    "Kiprotich Chelimo"; "Wairimu Githinji"; "Ombima Nyong'o"; "Nduta Waweru";
    "Kimani Macharia"; "Auma Ogola"; "Karanja Njeri"; "Chebet Korir";
    "Mwenda Mutua"; "Awuor Oduya"; "Gathoni Mbugua"; "Kiplagat Suter";
    "Mukami Githuka"; "Odongo Obong'o"; "Wangari Maathai"; "Talam Chepkwony";
    "Njeri Wanjiku"; "Odhiambo Otieno"; "Githui Kamunde"; "Moraa Gesare";
    "Kibet Lagat"; "Wambui Karanja"; "Okello Otieno"; "Njambi Koigi";
    "Rutto Kiplangat"; "Wangui Ndung'u"; "Oyugi Awuondo"; "Muthoni Kimemia";
    "Chepkurui Rotich"; "Waiguru Kamotho"; "Ochieng Oduor"; "Njoki Wanjiru";
    "Kiprono Cheruiyot"; "Wambugu Kamau"; "Anyango Onyango"; "Gitonga Mwangi";
    "Jeptoo Kibet"; "Muhoro Ndegwa"; "Akoth Omondi"; "Njuguna Kariuki";
    "Chelimo Kipchoge"; "Wangechi Mburu" ].

(** Writing one table of the store. *)
Definition with_schools_departments (db : DB) (schools : list School)
    (departments : list Department) : DB :=
  {| db_schools := schools; db_departments := departments;
     db_rooms := db_rooms db; db_lecturers := db_lecturers db;
     db_units := db_units db; db_student_groups := db_student_groups db;
     db_time_slots := db_time_slots db;
     db_timetable_entries := db_timetable_entries db;
     db_time_slot_seq := db_time_slot_seq db;
     db_timetable_entry_seq := db_timetable_entry_seq db |}.

Definition with_rooms (db : DB) (rooms : list Room) : DB :=
  {| db_schools := db_schools db; db_departments := db_departments db;
     db_rooms := rooms; db_lecturers := db_lecturers db;
     db_units := db_units db; db_student_groups := db_student_groups db;
     db_time_slots := db_time_slots db;
     db_timetable_entries := db_timetable_entries db;
     db_time_slot_seq := db_time_slot_seq db;
     db_timetable_entry_seq := db_timetable_entry_seq db |}.

Definition with_lecturers (db : DB) (lecturers : list Lecturer) : DB :=
  {| db_schools := db_schools db; db_departments := db_departments db;
     db_rooms := db_rooms db; db_lecturers := lecturers;
     db_units := db_units db; db_student_groups := db_student_groups db;
     db_time_slots := db_time_slots db;
     db_timetable_entries := db_timetable_entries db;
     db_time_slot_seq := db_time_slot_seq db;
     db_timetable_entry_seq := db_timetable_entry_seq db |}.

Definition with_units (db : DB) (units : list Unit) : DB :=
  {| db_schools := db_schools db; db_departments := db_departments db;
     db_rooms := db_rooms db; db_lecturers := db_lecturers db;
     db_units := units; db_student_groups := db_student_groups db;
     db_time_slots := db_time_slots db;
     db_timetable_entries := db_timetable_entries db;
     db_time_slot_seq := db_time_slot_seq db;
     db_timetable_entry_seq := db_timetable_entry_seq db |}.

Definition with_student_groups (db : DB) (groups : list StudentGroup) : DB :=
  {| db_schools := db_schools db; db_departments := db_departments db;
     db_rooms := db_rooms db; db_lecturers := db_lecturers db;
     db_units := db_units db; db_student_groups := groups;
     db_time_slots := db_time_slots db;
     db_timetable_entries := db_timetable_entries db;
     db_time_slot_seq := db_time_slot_seq db;
     db_timetable_entry_seq := db_timetable_entry_seq db |}.

(** [query(DBSchool).filter(DBSchool.code == code).first()] *)
Definition first_school_by_code (db : DB) (code : string) : option School :=
  head (filter (λ s, school_code s = code) (db_schools db)).

Definition new_school (name code : string) (id : Z) : School :=
  {| school_id := id; school_name := name; school_code := code |}.

Definition new_department (name code : string) (school : Z) (id : Z)
  : Department :=
  {| department_id := id; department_name := name;
     department_code := code; department_school_id := Some school |}.

(** [create_schools_and_departments].  A department code that is already
    taken violates the column's [unique=True]; the transaction then fails as
    a whole and the tables are as they were. *)
Definition create_schools_and_departments (st : Store) : outcome Store :=
  let db := store_db st in
  let existing_spas := first_school_by_code db "SPAS" in
  let existing_shs := first_school_by_code db "SHS" in
  if bool_decide (is_Some existing_spas ∧ is_Some existing_shs) then Done st
  else
    let spas_id := school_seq st in
    let spas_rows :=
      if existing_spas is None
      then [new_school "School of Pure and Applied Sciences" "SPAS" spas_id]
      else [] in
    let spas_departments :=
      if existing_spas is None
      then [new_department "Information Technology and Computer Science"
                           "ITCS" spas_id;
            new_department "Mathematics and Computing" "MAC" spas_id]
      else [] in
    let shs_id := school_seq st + Z.of_nat (length spas_rows) in
    let shs_rows :=
      if existing_shs is None
      then [new_school "School of Health Sciences" "SHS" shs_id]
      else [] in
    let shs_departments :=
      if existing_shs is None
      then [new_department "Nursing" "NURS" shs_id;
            new_department "Psychology" "PSYC" shs_id]
      else [] in
    let departments :=
      number_rows (department_seq st) (spas_departments ++ shs_departments) in
    if bool_decide (Exists (λ d, department_code d
                                 ∈ department_code <$> db_departments db)
                           departments)
    then Failed IntegrityError
    else
      Done {| store_db :=
                with_schools_departments db
                  (db_schools db ++ spas_rows ++ shs_rows)
                  (db_departments db ++ departments);
              school_seq :=
                shs_id + Z.of_nat (length shs_rows);
              department_seq :=
                department_seq st + Z.of_nat (length departments);
              room_seq := room_seq st;
              lecturer_seq := lecturer_seq st;
              unit_seq := unit_seq st;
              student_group_seq := student_group_seq st |}.

Definition new_room (name : string) (capacity : Z) (type : string) (id : Z)
  : Room :=
  {| room_id := id; room_name := name; room_capacity := capacity;
     room_type := type |}.

(** [create_rooms]: the [i]-th normal room takes the [i]-th draw. *)
Definition create_rooms (draws : nat → nat) (pos : nat) (st : Store)
  : Store * nat :=
  let db := store_db st in
  match db_rooms db with
  | _ :: _ => (st, pos)
  | [] =>
      let normal :=
        (λ i : nat,
           new_room ("Room " +:+ pad2 (Z.of_nat i))
                    (randint draws (pos + (i - 1)) 30 80) "normal")
        <$> seq 1 18 in
      let labs :=
        [new_room "Computer Lab A" 40 "lab";
         new_room "Computer Lab B" 35 "lab"] in
      let rooms := normal ++ labs in
      ({| store_db := with_rooms db (number_rows (room_seq st) rooms);
          school_seq := school_seq st;
          department_seq := department_seq st;
          room_seq := room_seq st + Z.of_nat (length rooms);
          lecturer_seq := lecturer_seq st;
          unit_seq := unit_seq st;
          student_group_seq := student_group_seq st |},
       (pos + 18)%nat)
  end.

Definition new_lecturer (name employee_id employment_type : string)
    (max_units : Z) (id : Z) : Lecturer :=
  {| lecturer_id := id; lecturer_name := name;
     lecturer_employee_id := employee_id;
     lecturer_employment_type := employment_type;
     lecturer_max_units := max_units |}.

(** One of the two loops of [create_lecturers]: [count] lecturers named
    [names_copy[offset + i]], with employee ids [prefix001], [prefix002],
    ...; indexing past the end of the list is an [IndexError]. *)
Fixpoint lecturer_batch (names_copy : list string) (offset : nat)
    (prefix employment_type : string) (max_units : Z) (i count : nat)
  : outcome (list (Z → Lecturer)) :=
  match count with
  | O => Done []
  | S count' =>
      name ← from_option Done (Failed (PythonError IndexError))
               (names_copy !! (offset + i)%nat);
      rest ← lecturer_batch names_copy offset prefix employment_type
                            max_units (S i) count';
      Done (new_lecturer name (prefix +:+ pad3 (i + 1)) employment_type
                         max_units :: rest)
  end.

(** [create_lecturers]: 49 draws for the shuffle, then one per lecturer
    for the phone number. *)
Definition create_lecturers (draws : nat → nat) (pos : nat) (st : Store)
  : outcome (Store * nat) :=
  let db := store_db st in
  match db_lecturers db with
  | _ :: _ => Done (st, pos)
  | [] =>
      let '(names_copy, pos) := shuffle draws pos kenyan_names in
      full_time ← lecturer_batch names_copy 0 "FT" "full_time" 4 0 30;
      part_time ← lecturer_batch names_copy 30 "PT" "part_time" 2 0 20;
      let lecturers := full_time ++ part_time in
      Done ({| store_db :=
                 with_lecturers db (number_rows (lecturer_seq st) lecturers);
               school_seq := school_seq st;
               department_seq := department_seq st;
               room_seq := room_seq st;
               lecturer_seq :=
                 lecturer_seq st + Z.of_nat (length lecturers);
               unit_seq := unit_seq st;
               student_group_seq := student_group_seq st |},
            (pos + 50)%nat)
  end.

(** The dictionary [subjects] of [create_units]. *)
Definition subjects : gmap string (list string) :=
  list_to_map
    [ ("ITCS", ["Programming"; "Database Systems"; "Network Security";
                "Web Development"; "Data Structures";
                "Software Engineering"; "Mobile Computing"; "AI";
                "Computer Graphics"; "System Administration"]);
      ("MAC", ["Calculus"; "Linear Algebra"; "Statistics";
               "Discrete Mathematics"; "Numerical Analysis";
               "Operations Research"; "Probability Theory";
               "Mathematical Modeling"; "Abstract Algebra";
               "Real Analysis"]);
      ("NURS", ["Anatomy"; "Physiology"; "Pharmacology"; "Medical Nursing";
                "Surgical Nursing"; "Community Health"; "Mental Health";
                "Pediatric Nursing"; "Obstetrics"; "Ethics in Nursing"]);
      ("PSYC", ["General Psychology"; "Developmental Psychology";
                "Abnormal Psychology"; "Social Psychology";
                "Cognitive Psychology"; "Research Methods";
                "Counseling Psychology"; "Educational Psychology";
                "Clinical Psychology"; "Personality Theory"]) ].

Definition lift {A} (r : result A) : outcome A :=
  match r with
  | Ok a => Done a
  | Raise e => Failed (PythonError e)
  end.

Definition new_unit (name code : string) (department : Z)
    (year_level semester : Z) (requires_lab : bool) (lecturer : Z) (id : Z)
  : Unit :=
  {| unit_id := id; unit_name := name; unit_code := code;
     unit_department_id := Some department; unit_year_level := year_level;
     unit_semester := semester; unit_requires_lab := requires_lab;
     unit_lecturer_id := Some lecturer |}.

(** The locals the loops of [create_units] update. *)
Record UnitsLoop := {
  ul_lecturer_units : gmap Z nat;
  ul_units : list (Z → Unit);
  ul_unit_counter : nat;
  ul_pos : nat }.

(** [for i in range(units_per_dept)], with [remaining] passes to go; the
    [break] leaves the loop when no lecturer has capacity left. *)
Fixpoint units_of_department (draws : nat → nat) (lecturers : list Lecturer)
    (dept : Department) (dept_subjects : list string) (remaining : nat)
    (ls : UnitsLoop) : outcome UnitsLoop :=
  match remaining with
  | O => Done ls
  | S remaining' =>
      let available_lecturers :=
        filter (λ l, Z.of_nat (ul_lecturer_units ls !!! lecturer_id l)
                     < lecturer_max_units l) lecturers in
      match available_lecturers with
      | [] => Done ls
      | _ :: _ =>
          let pos := ul_pos ls in
          lecturer ← lift (choice available_lecturers (draws pos));
          subject ← lift (choice dept_subjects (draws (pos + 1)%nat));
          let year_level := randint draws (pos + 2) 1 4 in
          let semester := randint draws (pos + 3) 1 2 in
          let '(requires_lab, pos') :=
            if bool_decide (department_code dept = "ITCS")
            then (random_below draws (pos + 4) threshold_0_4, (pos + 5)%nat)
            else if bool_decide (department_code dept = "MAC")
            then (random_below draws (pos + 4) threshold_0_2, (pos + 5)%nat)
            else (false, (pos + 4)%nat) in
          let unit :=
            new_unit (subject +:+ " " +:+ pretty year_level)
                     (department_code dept +:+ pad3 (ul_unit_counter ls))
                     (department_id dept) year_level semester requires_lab
                     (lecturer_id lecturer) in
          units_of_department draws lecturers dept dept_subjects remaining'
            {| ul_lecturer_units :=
                 <[lecturer_id lecturer :=
                     S (ul_lecturer_units ls !!! lecturer_id lecturer)]>
                   (ul_lecturer_units ls);
               ul_units := ul_units ls ++ [unit];
               ul_unit_counter := S (ul_unit_counter ls);
               ul_pos := pos' |}
      end
  end.

(** [for dept in departments]; [subjects[dept.code]] is a [KeyError] for a
    code outside the dictionary. *)
Fixpoint units_of_departments (draws : nat → nat) (lecturers : list Lecturer)
    (departments : list Department) (ls : UnitsLoop) : outcome UnitsLoop :=
  match departments with
  | [] => Done ls
  | dept :: rest =>
      dept_subjects ← from_option Done (Failed (PythonError KeyError))
                        (subjects !! department_code dept);
      ls' ← units_of_department draws lecturers dept dept_subjects 25 ls;
      units_of_departments draws lecturers rest ls'
  end.

(** [create_units] *)
Definition create_units (draws : nat → nat) (pos : nat) (st : Store)
  : outcome (Store * nat) :=
  let db := store_db st in
  match db_units db with
  | _ :: _ => Done (st, pos)
  | [] =>
      let departments := db_departments db in
      let lecturers := db_lecturers db in
      ls ← units_of_departments draws lecturers departments
             {| ul_lecturer_units := ∅; ul_units := [];
                ul_unit_counter := 1; ul_pos := pos |};
      Done ({| store_db :=
                 with_units db (number_rows (unit_seq st) (ul_units ls));
               school_seq := school_seq st;
               department_seq := department_seq st;
               room_seq := room_seq st;
               lecturer_seq := lecturer_seq st;
               unit_seq := unit_seq st + Z.of_nat (length (ul_units ls));
               student_group_seq := student_group_seq st |},
            ul_pos ls)
  end.

Definition new_student_group (department : Z) (year_level group_size : Z)
    (id : Z) : StudentGroup :=
  {| sg_id := id; sg_department_id := Some department;
     sg_year_level := year_level; sg_group_size := group_size |}.

(** The two loops of [create_student_groups]: four groups per department,
    one draw each. *)
Fixpoint groups_of_departments (draws : nat → nat) (pos : nat)
    (departments : list Department) : list (Z → StudentGroup) :=
  match departments with
  | [] => []
  | dept :: rest =>
      ((λ year : nat,
          new_student_group (department_id dept) (Z.of_nat year)
                            (randint draws (pos + (year - 1)) 25 60))
       <$> seq 1 4)
      ++ groups_of_departments draws (pos + 4) rest
  end.

(** [create_student_groups] *)
Definition create_student_groups (draws : nat → nat) (pos : nat) (st : Store)
  : Store * nat :=
  let db := store_db st in
  match db_student_groups db with
  | _ :: _ => (st, pos)
  | [] =>
      let departments := db_departments db in
      let student_groups := groups_of_departments draws pos departments in
      ({| store_db :=
            with_student_groups db
              (number_rows (student_group_seq st) student_groups);
          school_seq := school_seq st;
          department_seq := department_seq st;
          room_seq := room_seq st;
          lecturer_seq := lecturer_seq st;
          unit_seq := unit_seq st;
          student_group_seq :=
            student_group_seq st + Z.of_nat (length student_groups) |},
       (pos + 4 * length departments)%nat)
  end.

(** The result of [generate_sample_data]: the store and the draws used, or
    the exception together with the store as of the last commit (each of
    the five steps commits on its own). *)
Inductive sample_outcome :=
  | Generated (st : Store) (pos : nat)
  | Aborted (e : failure) (st : Store).

(** [generate_sample_data] *)
Definition generate_sample_data (draws : nat → nat) (pos : nat) (st : Store)
  : sample_outcome :=
  match create_schools_and_departments st with
  | Failed e => Aborted e st
  | Done st1 =>
      let '(st2, pos2) := create_rooms draws pos st1 in
      match create_lecturers draws pos2 st2 with
      | Failed e => Aborted e st2
      | Done (st3, pos3) =>
          match create_units draws pos3 st3 with
          | Failed e => Aborted e st3
          | Done (st4, pos4) =>
              let '(st5, pos5) := create_student_groups draws pos4 st4 in
              Generated st5 pos5
          end
      end
  end.

Definition with_db (st : Store) (db : DB) : Store :=
  {| store_db := db;
     school_seq := school_seq st;
     department_seq := department_seq st;
     room_seq := room_seq st;
     lecturer_seq := lecturer_seq st;
     unit_seq := unit_seq st;
     student_group_seq := student_group_seq st |}.

(** [POST /api/initialize/sample-data] *)
Definition initialize_sample_data (draws : nat → nat) (st : Store)
  : response string * Store :=
  match generate_sample_data draws 0 st with
  | Aborted e st' => (Http500 e, st')
  | Generated st' _ =>
      let '(_, db') := generate_time_slots (store_db st') in
      (Http200 "Sample data initialized successfully", with_db st' db')
  end.

(** The store of a fresh database: empty tables, counters at 1. *)
Definition empty_store : Store :=
  {| store_db := empty_db; school_seq := 1; department_seq := 1;
     room_seq := 1; lecturer_seq := 1; unit_seq := 1;
     student_group_seq := 1 |}.

(** * Properties *)

(** ** The slot catalog *)

Lemma flush_time_slots_rows next l :
  catalog_row <$> flush_time_slots next l = catalog_row <$> l.
Proof.
  revert next. induction l as [|s l IH]; intros next; simpl; [done|].
  by rewrite IH.
Qed.

Lemma flush_time_slots_length next l :
  length (flush_time_slots next l) = length l.
Proof. revert next. induction l; intros; simpl; auto. Qed.

Lemma count_slots_rows day ty l l' :
  catalog_row <$> l = catalog_row <$> l' →
  count_slots day ty l = count_slots day ty l'.
Proof.
  unfold count_slots. revert l'.
  induction l as [|s l IH]; intros [|s' l'] Heq; simplify_eq/=; [done|].
  rewrite !filter_cons.
  assert (ts_day_of_week s = ts_day_of_week s') as ->
    by (unfold catalog_row in *; congruence).
  assert (ts_session_type s = ts_session_type s') as ->
    by (unfold catalog_row in *; congruence).
  destruct (decide _); simpl; erewrite IH; eauto.
Qed.

Lemma generate_time_slots_rows db :
  catalog_row <$> (generate_time_slots db).1 = catalog_row <$> built_time_slots.
Proof. apply flush_time_slots_rows. Qed.

(** C5, as stated, asks for 5 slots per day in each profile; the long profile
    has 4 on Monday. *)
Lemma generate_time_slots_not_five_per_profile :
  ¬ (∀ db day ty, day ∈ [1; 2; 3; 4; 5] → ty ∈ ["spas_3h"; "shs_2h"] →
       count_slots day ty (generate_time_slots db).1 = 5%nat).
Proof.
  intros H. specialize (H empty_db 1 "spas_3h").
  assert (count_slots 1 "spas_3h" (generate_time_slots empty_db).1 = 4%nat)
    as E by (by vm_compute).
  rewrite E in H. enough (4 = 5)%nat by lia. apply H; set_solver.
Qed.

(** C5, amended: whatever the store holds, [generate_time_slots] returns 50
    slots, which are for each day 1..5 the 4 [spas_3h] sessions followed by
    the 6 [shs_2h] sessions (so 4 long and 6 short per day); a second call,
    made on the store the first one left, returns the same catalog up to the
    store-assigned ids. *)
Theorem generate_time_slots_catalog (db : DB) :
  let slots := (generate_time_slots db).1 in
  length slots = 50%nat ∧
  catalog_row <$> slots
    = concat ((λ day,
        ((λ se, (day, se.1, se.2, "spas_3h")) <$> spas_sessions)
        ++ ((λ se, (day, se.1, se.2, "shs_2h")) <$> shs_sessions))
              <$> [1; 2; 3; 4; 5]) ∧
  Forall (λ day, count_slots day "spas_3h" slots = 4%nat ∧
                 count_slots day "shs_2h" slots = 6%nat) [1; 2; 3; 4; 5] ∧
  catalog_row <$> (generate_time_slots (generate_time_slots db).2).1
    = catalog_row <$> slots.
Proof.
  cbv zeta. split_and!.
  - unfold generate_time_slots, add_all_time_slots. cbn [fst].
    by rewrite flush_time_slots_length.
  - by rewrite generate_time_slots_rows.
  - repeat constructor;
      by rewrite (count_slots_rows _ _ _ built_time_slots)
        by apply generate_time_slots_rows.
  - by rewrite !generate_time_slots_rows.
Qed.

(** C6, as stated, fails: on the empty store the call leaves 50 rows in the
    time-slot table. *)
Lemma generate_time_slots_changes_store :
  (generate_time_slots empty_db).2 ≠ empty_db ∧
  length (db_time_slots (generate_time_slots empty_db).2) = 50%nat.
Proof.
  split; [|by vm_compute].
  intros H. by apply (f_equal db_time_slot_seq) in H.
Qed.

(** C6, amended: [generate_time_slots] saves the catalog itself: the returned
    50 rows are appended to the store's time-slot table with the next 50
    serial ids; every other table is left as it was. *)
Theorem generate_time_slots_store_effect (db : DB) :
  let rows := (generate_time_slots db).1 in
  let db' := (generate_time_slots db).2 in
  db_time_slots db' = db_time_slots db ++ rows ∧
  ts_id <$> rows
    = (λ i : nat, Some (db_time_slot_seq db + Z.of_nat i)) <$> seq 0 50 ∧
  db_time_slot_seq db' = db_time_slot_seq db + 50 ∧
  db_schools db' = db_schools db ∧
  db_departments db' = db_departments db ∧
  db_rooms db' = db_rooms db ∧
  db_lecturers db' = db_lecturers db ∧
  db_units db' = db_units db ∧
  db_student_groups db' = db_student_groups db ∧
  db_timetable_entries db' = db_timetable_entries db ∧
  db_timetable_entry_seq db' = db_timetable_entry_seq db.
Proof.
  cbv zeta. split_and!; try reflexivity.
  unfold generate_time_slots, add_all_time_slots; simpl.
  generalize (db_time_slot_seq db) as n; intros n.
  vm_compute flush_time_slots. simpl.
  repeat (f_equal; try lia).
Qed.

(** ** The validator *)

Section bookings.
Implicit Types (d : list (option Z * list TimetableEntry)).
Implicit Types (l es : list TimetableEntry) (k : option Z).

Lemma bookings_append_keys k e d :
  (bookings_append k e d).*1 = if decide (k ∈ d.*1) then d.*1 else d.*1 ++ [k].
Proof.
  induction d as [|[k' es] d IH]; [done|].
  cbn [bookings_append]. rewrite fmap_cons. cbn [fst].
  destruct (decide (k' = k)) as [->|Hne]; rewrite fmap_cons; cbn [fst].
  - rewrite decide_True; [done|]. apply list_elem_of_here.
  - rewrite IH. destruct (decide (k ∈ d.*1)) as [Hin|Hnin].
    + rewrite decide_True; [done|]. by apply list_elem_of_further.
    + rewrite decide_False; [done|].
      rewrite elem_of_cons. intuition congruence.
Qed.

Lemma bookings_append_elem k e d k' es' :
  NoDup d.*1 →
  (k', es') ∈ bookings_append k e d →
  (k' ≠ k ∧ (k', es') ∈ d)
  ∨ (k' = k ∧ ∃ es, (k, es) ∈ d ∧ es' = es ++ [e])
  ∨ (k' = k ∧ (k ∉ d.*1) ∧ es' = [e]).
Proof.
  induction d as [|[k0 es0] d IH]; simpl; intros Hnd Hin.
  - apply list_elem_of_singleton in Hin. simplify_eq.
    right; right. split_and!; [done| |done]. apply not_elem_of_nil.
  - apply NoDup_cons in Hnd as [Hk0 Hnd].
    destruct (decide (k0 = k)) as [->|Hne].
    + apply elem_of_cons in Hin as [Heq|Hin].
      * simplify_eq. right; left. split; [done|].
        eexists; split; [apply list_elem_of_here|done].
      * left. split; [|by apply list_elem_of_further].
        intros ->. apply Hk0.
        by apply (list_elem_of_fmap_2 fst) in Hin.
    + apply elem_of_cons in Hin as [Heq|Hin].
      * simplify_eq. left. split; [done|apply list_elem_of_here].
      * destruct (IH Hnd Hin) as [[? ?]|[[-> (es & ? & ->)]|(-> & ? & ->)]].
        -- left. split; [done|by apply list_elem_of_further].
        -- right; left. split; [done|].
           eexists; split; [by apply list_elem_of_further|done].
        -- right; right. split_and!; [done| |done].
           rewrite elem_of_cons. intuition congruence.
Qed.

Lemma slot_bookings_snoc l e :
  slot_bookings (l ++ [e])
  = bookings_append (te_time_slot_id e) e (slot_bookings l).
Proof. unfold slot_bookings. by rewrite foldl_snoc. Qed.

Lemma slot_bookings_keys l :
  NoDup (slot_bookings l).*1 ∧
  ∀ k, k ∈ (slot_bookings l).*1 ↔ ∃ e, e ∈ l ∧ te_time_slot_id e = k.
Proof.
  induction l as [|e l [IHnd IHk]] using rev_ind.
  - split; [constructor|]. intros k; split.
    + intros H. by apply elem_of_nil in H.
    + intros (e & H & _). by apply elem_of_nil in H.
  - rewrite slot_bookings_snoc, bookings_append_keys.
    destruct (decide _) as [Hin|Hnin].
    + split; [done|]. intros k. rewrite IHk. split.
      * intros (e' & ? & ?). exists e'. split; [|done].
        apply elem_of_app; auto.
      * intros (e' & [?|He']%elem_of_app & ?); [by eauto|].
        apply list_elem_of_singleton in He' as ->. subst k. by apply IHk.
    + split.
      * apply NoDup_app. split_and!; [done| |apply NoDup_singleton].
        intros k Hk ->%list_elem_of_singleton. done.
      * intros k. rewrite elem_of_app, IHk, list_elem_of_singleton.
        split.
        -- intros [(e' & ? & ?)| ->].
           ++ exists e'. split; [|done]. apply elem_of_app; auto.
           ++ exists e. split; [|done]. apply elem_of_app; right.
              apply list_elem_of_here.
        -- intros (e' & [?|He']%elem_of_app & ?); [by eauto|].
           apply list_elem_of_singleton in He' as ->. by right.
Qed.

(** Each item of [slot_bookings] pairs a slot id with exactly the entries
    that reference it. *)
Lemma slot_bookings_at_slot l k es :
  (k, es) ∈ slot_bookings l → es = at_slot k l.
Proof.
  revert k es. induction l as [|e l IH] using rev_ind; intros k es Hin.
  - by apply elem_of_nil in Hin.
  - rewrite slot_bookings_snoc in Hin. unfold at_slot. rewrite filter_app.
    apply bookings_append_elem in Hin; [|apply slot_bookings_keys].
    destruct Hin as [[Hne Hin]|[[-> (es0 & Hin & ->)]|(-> & Hnin & ->)]].
    + rewrite filter_cons_False, filter_nil, app_nil_r by congruence.
      by apply IH.
    + rewrite filter_cons_True, filter_nil by done.
      f_equal. by apply IH.
    + rewrite filter_cons_True, filter_nil by done.
      replace (filter _ l) with (@nil TimetableEntry); [done|].
      symmetry. apply elem_of_nil_inv.
      intros e' [Heq He']%list_elem_of_filter. apply Hnin.
      apply slot_bookings_keys. eauto.
Qed.

Lemma slot_bookings_covers l e :
  e ∈ l → (te_time_slot_id e, at_slot (te_time_slot_id e) l) ∈ slot_bookings l.
Proof.
  intros He.
  assert (te_time_slot_id e ∈ (slot_bookings l).*1) as Hk
    by (apply slot_bookings_keys; eauto).
  apply list_elem_of_fmap in Hk as ([k es] & Hk & Hin). simpl in Hk. subst k.
  by rewrite <- (slot_bookings_at_slot _ _ _ Hin).
Qed.
End bookings.

Lemma has_duplicates_false (xs : list (option Z)) :
  has_duplicates xs = false ↔ NoDup xs.
Proof.
  unfold has_duplicates. rewrite negb_false_iff, bool_decide_eq_true.
  split; [|apply size_list_to_set].
  induction xs as [|x xs IH]; [constructor|].
  assert (∀ ys : list (option Z),
            (size (list_to_set ys : gset (option Z)) ≤ length ys)%nat) as Hle.
  { clear. induction ys as [|y ys IH].
    - by rewrite list_to_set_nil, size_empty.
    - rewrite list_to_set_cons. cbn [length].
      rewrite size_union_alt, size_singleton.
      assert (size (list_to_set ys ∖ {[y]} : gset (option Z))
              ≤ size (list_to_set ys : gset (option Z)))%nat
        by (apply subseteq_size, subseteq_difference_l; reflexivity).
      lia. }
  rewrite list_to_set_cons. cbn [length]. intros Hsz.
  destruct (decide (x ∈ xs)) as [Hin|Hnin].
  - exfalso. specialize (Hle xs).
    replace ({[x]} ∪ list_to_set xs : gset (option Z))
      with (list_to_set xs : gset (option Z)) in Hsz; [lia|].
    apply set_eq. intros y. rewrite elem_of_union, elem_of_singleton.
    rewrite elem_of_list_to_set. split; [by right|by intros [->|?]].
  - apply NoDup_cons. split; [done|]. apply IH.
    rewrite size_union in Hsz.
    + rewrite size_singleton in Hsz. lia.
    + apply disjoint_singleton_l. by rewrite elem_of_list_to_set.
Qed.

Lemma has_duplicates_true (xs : list (option Z)) :
  has_duplicates xs = true ↔ ¬ NoDup xs.
Proof.
  rewrite <- has_duplicates_false. destruct (has_duplicates xs); naive_solver.
Qed.

Lemma double_booking_conflicts_nil (l : list TimetableEntry) :
  no_double_booking l →
  slot_bookings l ≫= double_booking_conflicts = [].
Proof.
  intros Hnd.
  assert (∀ item, item ∈ slot_bookings l → double_booking_conflicts item = [])
    as Hall.
  { intros [k es] Hin. apply slot_bookings_at_slot in Hin as ->.
    destruct (Hnd k) as (Hl & Hr & Hs).
    unfold double_booking_conflicts; simpl.
    by rewrite (proj2 (has_duplicates_false _) Hl),
      (proj2 (has_duplicates_false _) Hr), (proj2 (has_duplicates_false _) Hs). }
  induction (slot_bookings l) as [|item d IH]; [done|]. simpl.
  rewrite Hall by apply list_elem_of_here. simpl.
  apply IH. intros ??. apply Hall. by apply list_elem_of_further.
Qed.

Lemma is_valid_iff (db : DB) (l : list TimetableEntry) :
  is_valid (validate_constraints db l) = true
  ↔ conflicts (validate_constraints db l) = [].
Proof.
  unfold validate_constraints; simpl. rewrite bool_decide_eq_true.
  split; [apply nil_length_inv|by intros ->].
Qed.

Lemma at_slot_duplicate {B} (f : TimetableEntry → B)
    (l : list TimetableEntry) (i j : nat) (e1 e2 : TimetableEntry) :
  (i < j)%nat → l !! i = Some e1 → l !! j = Some e2 →
  te_time_slot_id e1 = te_time_slot_id e2 → f e1 = f e2 →
  ¬ NoDup (f <$> at_slot (te_time_slot_id e1) l).
Proof.
  intros Hij H1 H2 Hslot Hf Hnd.
  rewrite <- (take_drop_middle l i e1 H1) in Hnd.
  unfold at_slot in Hnd.
  rewrite filter_app, filter_cons_True, fmap_app, fmap_cons in Hnd by done.
  apply NoDup_app in Hnd as (_ & _ & Hnd).
  apply NoDup_cons in Hnd as [Hnin _]. apply Hnin.
  rewrite Hf. apply list_elem_of_fmap_2, list_elem_of_filter. split; [done|].
  apply (list_elem_of_lookup_2 _ (j - S i)).
  rewrite lookup_drop. rewrite <- H2. f_equal. lia.
Qed.

Lemma mentions_suffix (p s : string) : mentions s (p +:+ s) = true.
Proof.
  assert (∀ t, String.prefix t t = true) as Hrefl.
  { induction t as [|c t IH]; [done|]. cbn [String.prefix].
    by destruct (Ascii.ascii_dec c c). }
  induction p as [|c p IH].
  - change ("" +:+ s) with s. destruct s; cbn [mentions]; by rewrite Hrefl.
  - change (String c p +:+ s) with (String c (p +:+ s)).
    cbn [mentions]. rewrite IH. apply orb_true_r.
Qed.

(** C4, as stated, fails: with lecturer 7 booked twice in slot 3 the result
    is invalid, but its only conflict message names the slot and mentions
    neither the lecturer's id nor the name or employee id of any lecturer of
    the store. *)
Lemma validate_message_omits_lecturer :
  let r := validate_constraints demo_db [clash_a; clash_b] in
  te_time_slot_id clash_a = te_time_slot_id clash_b ∧
  te_lecturer_id clash_a = te_lecturer_id clash_b ∧
  is_valid r = false ∧
  conflicts r = ["Lecturer double-booked in time slot 3"] ∧
  ¬ (∃ msg, msg ∈ conflicts r ∧
            mentions (py_str (te_lecturer_id clash_a)) msg = true ∧
            mentions (py_str (te_time_slot_id clash_a)) msg = true) ∧
  Forall (λ msg,
    Forall (λ l, mentions (pretty (lecturer_id l)) msg = false ∧
                 mentions (lecturer_name l) msg = false ∧
                 mentions (lecturer_employee_id l) msg = false)
           (db_lecturers demo_db))
    (conflicts r).
Proof.
  cbv zeta.
  assert (conflicts (validate_constraints demo_db [clash_a; clash_b])
          = ["Lecturer double-booked in time slot 3"]) as E by (by vm_compute).
  split_and!; [done|done|by vm_compute|done| |].
  - intros (msg & Hin & Hl & _).
    rewrite E in Hin. apply list_elem_of_singleton in Hin as ->.
    vm_compute in Hl. discriminate.
  - rewrite E. repeat constructor.
Qed.

(** C4, amended: when two entries of the list share a time-slot id and a
    lecturer id, [validate_constraints] returns [is_valid = false] and its
    conflicts contain the message ["Lecturer double-booked in time slot <id>"],
    which names the slot (the message does not depend on the lecturer);
    [is_valid] is true iff the conflicts list is empty. *)
Theorem validate_reports_lecturer_double_booking
    (db : DB) (l : list TimetableEntry) (i j : nat) (e1 e2 : TimetableEntry) :
  i ≠ j → l !! i = Some e1 → l !! j = Some e2 →
  te_time_slot_id e1 = te_time_slot_id e2 →
  te_lecturer_id e1 = te_lecturer_id e2 →
  is_valid (validate_constraints db l) = false ∧
  "Lecturer double-booked in time slot " +:+ py_str (te_time_slot_id e1)
    ∈ conflicts (validate_constraints db l) ∧
  mentions (py_str (te_time_slot_id e1))
    ("Lecturer double-booked in time slot " +:+ py_str (te_time_slot_id e1))
    = true ∧
  ∀ l', is_valid (validate_constraints db l') = true
        ↔ conflicts (validate_constraints db l') = [].
Proof.
  intros Hij H1 H2 Hslot Hlect.
  assert (¬ NoDup (te_lecturer_id <$> at_slot (te_time_slot_id e1) l)) as Hdup.
  { destruct (decide (i < j)%nat).
    - by eapply at_slot_duplicate.
    - rewrite Hslot. eapply (at_slot_duplicate _ l j i e2 e1); eauto; lia. }
  assert ("Lecturer double-booked in time slot " +:+ py_str (te_time_slot_id e1)
            ∈ conflicts (validate_constraints db l)) as Hmsg.
  { unfold validate_constraints; cbn [conflicts].
    apply elem_of_app; left. apply list_elem_of_bind.
    exists (te_time_slot_id e1, at_slot (te_time_slot_id e1) l). split.
    - unfold double_booking_conflicts; cbn [fst snd].
      rewrite (proj2 (has_duplicates_true _) Hdup).
      apply list_elem_of_here.
    - apply slot_bookings_covers. by eapply list_elem_of_lookup_2. }
  split_and!; [|done| |apply is_valid_iff].
  - destruct (is_valid _) eqn:E; [|done].
    apply is_valid_iff in E. rewrite E in Hmsg. by apply elem_of_nil in Hmsg.
  - apply mentions_suffix.
Qed.

Lemma validate_reports_lecturer_double_booking_witness :
  is_valid (validate_constraints empty_db
    [ {| te_id := None; te_unit_id := None; te_lecturer_id := Some 7;
         te_room_id := Some 1; te_time_slot_id := Some 3;
         te_student_group_id := Some 1; te_week_type := None |};
      {| te_id := None; te_unit_id := None; te_lecturer_id := Some 7;
         te_room_id := Some 2; te_time_slot_id := Some 3;
         te_student_group_id := Some 2; te_week_type := None |} ]) = false.
Proof.
  refine (proj1 (validate_reports_lecturer_double_booking empty_db _ 0 1 _ _
                   _ _ _ _ _)); [lia|reflexivity..].
Defined.

Lemma lab_conflicts_nil (db : DB) (l : list TimetableEntry) :
  (∀ e, e ∈ l → lab_conflicts db e = []) → l ≫= lab_conflicts db = [].
Proof.
  induction l as [|e l IH]; intros H; [done|]. simpl.
  rewrite H by apply list_elem_of_here. simpl.
  apply IH. intros ??. apply H. by apply list_elem_of_further.
Qed.

(** C10: the lab check of a dangling entry yields no conflict, no call yields
    a warning, and a list of dangling entries without a double booking
    validates. *)
Theorem validate_skips_dangling (db : DB) (l : list TimetableEntry) :
  (∀ e, dangling db e → lab_conflicts db e = []) ∧
  warnings (validate_constraints db l) = [] ∧
  ((∀ e, e ∈ l → dangling db e) → no_double_booking l →
   validate_constraints db l
   = {| is_valid := true; conflicts := []; warnings := [] |}).
Proof.
  assert (∀ e, dangling db e → lab_conflicts db e = []) as Hskip.
  { intros e [H|H]; unfold lab_conflicts; rewrite H; [done|].
    by destruct (first_unit _ _). }
  split_and!; [done|done|]. intros Hd Hnd. unfold validate_constraints.
  rewrite double_booking_conflicts_nil by done.
  rewrite lab_conflicts_nil by auto. done.
Qed.

Lemma validate_skips_dangling_witness :
  validate_constraints empty_db
    [ {| te_id := Some 1; te_unit_id := Some 41; te_lecturer_id := Some 7;
         te_room_id := Some 9; te_time_slot_id := Some 3;
         te_student_group_id := Some 1; te_week_type := Some "all" |};
      {| te_id := Some 2; te_unit_id := Some 42; te_lecturer_id := Some 7;
         te_room_id := Some 9; te_time_slot_id := Some 4;
         te_student_group_id := Some 1; te_week_type := Some "all" |} ]
  = {| is_valid := true; conflicts := []; warnings := [] |}.
Proof.
  refine (proj2 (proj2 (validate_skips_dangling empty_db _)) _ _).
  - intros e _. by left.
  - intros k. unfold at_slot.
    rewrite !filter_cons, filter_nil.
    repeat case_decide; simplify_eq/=; split_and!;
      repeat constructor; set_solver.
Defined.

(** ** The generator: early exit, failure, bounded placement *)

(** C8: with no units, no time slots or no rooms, [generate_schedule] returns
    the empty list at once: nothing is drawn, no unit is reported on, and the
    store is not written. *)
Theorem generate_schedule_empty_input (draws : nat → nat) (db : DB) :
  db_units db = [] ∨ db_time_slots db = [] ∨ db_rooms db = [] →
  generate_schedule draws db = Ok ([], db, []).
Proof.
  unfold generate_schedule.
  intros [H|[H|H]]; rewrite H;
    by destruct (db_units db), (db_time_slots db), (db_rooms db).
Qed.

Lemma generate_schedule_empty_input_witness :
  generate_schedule (λ _, 0%nat) empty_db = Ok ([], empty_db, []).
Proof. apply generate_schedule_empty_input. by left. Defined.

(** C7 at [schoolless_db]: the unit's school does not resolve, and the call
    raises instead of skipping the unit. *)
Theorem generate_schedule_raises_without_school (draws : nat → nat) :
  primary_keys schoolless_db ∧
  generate_schedule draws schoolless_db = Raise AttributeError.
Proof. split; [|done]. apply (bool_decide_unpack _). by vm_compute. Qed.

Lemma place_spec (draws : nat → nat) (unit : Unit) (sg : StudentGroup)
    (slots : list TimeSlot) (rooms : list Room)
    (remaining attempts : nat) (st : Tracking) :
  match place draws unit sg slots rooms remaining attempts st with
  | Ok (scheduled, n, st') =>
      (attempts ≤ n ≤ attempts + remaining)%nat ∧
      rng_pos st' = (rng_pos st + 2 * (n - attempts))%nat ∧
      timetable_entries st `prefix_of` timetable_entries st' ∧
      (scheduled = false →
       n = (attempts + remaining)%nat ∧
       timetable_entries st' = timetable_entries st ∧ same_indexes st st')
  | Raise e => e = KeyError ∨ e = IndexError
  end.
Proof.
  revert attempts st.
  induction remaining as [|k IH]; intros attempts st; cbn [place].
  { split_and!; [lia|lia|lia|done|]. intros _. by split_and!. }
  destruct (choice slots _) as [slot|e] eqn:Hs; cbn [mbind result_bind];
    [|unfold choice in Hs; destruct (_ !! _); simplify_eq; auto].
  destruct (choice rooms _) as [room|e] eqn:Hr; cbn [mbind result_bind];
    [|unfold choice in Hr; destruct (_ !! _); simplify_eq; auto].
  destruct (conflict unit room slot sg (draw2 st)) eqn:Hc; cbn [negb].
  - specialize (IH (S attempts) (draw2 st)).
    destruct (place _ _ _ _ _ _ _ _) as [[[scheduled n] st']|e]; [|done].
    destruct IH as (Hn & Hpos & Hpre & Hno). cbn [draw2 rng_pos] in Hpos.
    split_and!; [lia|lia|lia|done|].
    intros Hf. destruct (Hno Hf) as (-> & ? & ?). split_and!; [lia|done..].
  - destruct (day_names !! _); [|auto]. cbn [commit draw2 rng_pos].
    split_and!; [lia|lia|lia| |done]. by apply prefix_app_r.
Qed.



(** What one pass over a unit does to the run, by report: a skipped or
    unplaced unit leaves the entry list and the indexes as they were, and the
    attempts stay within the budget. *)
Lemma schedule_unit_report draws db rooms time_slots unit st st' report :
  schedule_unit draws db rooms time_slots unit st = Ok (st', report) →
  timetable_entries st `prefix_of` timetable_entries st' ∧
  match report with
  | NoStudentGroup | NoSuitableRooms | NoTimeSlots => st' = st
  | CouldNotSchedule n =>
      (n ≤ 100)%nat ∧ (n ≤ length time_slots * length rooms)%nat ∧
      timetable_entries st' = timetable_entries st ∧ same_indexes st st'
  | Scheduled n =>
      (n ≤ 100)%nat ∧ (n ≤ length time_slots * length rooms)%nat
  end.
Proof.
  unfold schedule_unit.
  destruct (first_student_group _ _ _) as [sg|]; [|by intros [= <- <-]].
  destruct (first_department _ _) as [dept|]; cbn; [|done].
  destruct (first_school _ _) as [school|]; cbn; [|done].
  set (rs := if unit_requires_lab unit
             then filter (λ r, room_type r = "lab") rooms
             else filter (λ r, room_type r = "normal") rooms).
  set (ss := filter _ time_slots).
  assert (length rs ≤ length rooms)%nat as Hrs
    by (subst rs; destruct (unit_requires_lab unit); apply length_filter).
  assert (length ss ≤ length time_slots)%nat as Hss by apply length_filter.
  destruct rs as [|r0 rs0] eqn:Er; [by intros [= <- <-]|].
  destruct ss as [|s0 ss0] eqn:Es; [by intros [= <- <-]|].
  pose proof (place_spec draws unit sg (s0 :: ss0) (r0 :: rs0)
    (100 `min` (length (s0 :: ss0) * length (r0 :: rs0))) 0 st) as Hp.
  destruct (place _ _ _ _ _ _ _ _) as [[[b n] st1]|]; cbn; [|done].
  destruct Hp as (Hn & _ & Hpre & Hno). intros [= <- <-].
  split; [done|].
  assert (n ≤ 100 ∧ n ≤ length time_slots * length rooms)%nat as [? ?] by nia.
  destruct b; [done|]. destruct (Hno eq_refl) as (_ & ? & ?). done.
Qed.

(** ** The generator: what a run maintains *)

Lemma flush_entries_booking next l :
  booking <$> flush_entries next l = booking <$> l.
Proof.
  revert next. induction l as [|e l IH]; intros next; [done|].
  cbn [flush_entries]. rewrite !fmap_cons, IH. done.
Qed.

Lemma at_slot_booking {B} (f : TimetableEntry → B) l l' k :
  (∀ e e', booking e = booking e' → f e = f e') →
  booking <$> l = booking <$> l' →
  f <$> at_slot k l = f <$> at_slot k l'.
Proof.
  intros Hf. revert l'.
  induction l as [|e l IH]; intros [|e' l'] Heq; try done.
  rewrite !fmap_cons in Heq.
  assert (booking e = booking e' ∧ booking <$> l = booking <$> l')
    as [He Hl] by (split; congruence).
  unfold at_slot. rewrite !filter_cons.
  assert (te_time_slot_id e = te_time_slot_id e') as Hs
    by (unfold booking in He; congruence).
  rewrite Hs. destruct (decide _).
  - rewrite !fmap_cons. f_equal; [by apply Hf|by apply IH].
  - by apply IH.
Qed.

Lemma no_double_booking_booking l l' :
  booking <$> l = booking <$> l' → no_double_booking l → no_double_booking l'.
Proof.
  intros Heq Hnd k. destruct (Hnd k) as (Hl & Hr & Hs).
  rewrite <- !(at_slot_booking _ l l' k) by
    (done || (intros ??; unfold booking; congruence)).
  done.
Qed.

Section indexes.
Context `{Countable K}.
Implicit Types (m : gmap K (gset (Z * time))) (k : Z * time).

Lemma index_add_here m i k : k ∈ <[i := {[k]} ∪ m !!! i]> m !!! i.
Proof. rewrite lookup_total_insert_eq. set_solver. Qed.

Lemma index_add_mono m i j k k' :
  k ∈ m !!! j → k ∈ <[i := {[k']} ∪ m !!! i]> m !!! j.
Proof.
  intros Hk. destruct (decide (i = j)) as [->|Hne].
  - rewrite lookup_total_insert_eq. set_solver.
  - by rewrite lookup_total_insert_ne.
Qed.
End indexes.

Lemma first_by_key {A} (key : A → Z) (l : list A) (x : A) :
  NoDup (key <$> l) → x ∈ l →
  head (filter (λ y, Some (key y) = Some (key x)) l) = Some x.
Proof.
  induction l as [|y l IH]; intros Hnd Hin; [by apply elem_of_nil in Hin|].
  rewrite fmap_cons in Hnd. apply NoDup_cons in Hnd as [Hy Hnd].
  rewrite filter_cons. apply elem_of_cons in Hin as [->|Hin].
  - by rewrite decide_True.
  - rewrite decide_False; [by apply IH|].
    intros [= Heq]. apply Hy. rewrite Heq. by apply list_elem_of_fmap_2.
Qed.

Lemma insert_unit_perm u l : insert_unit u l ≡ₚ u :: l.
Proof.
  induction l as [|v l IH]; [done|]. cbn [insert_unit].
  destruct (priority_lt _ _); [|done].
  rewrite IH. apply Permutation_swap.
Qed.

Lemma sorted_perm units : sorted units ≡ₚ units.
Proof.
  induction units as [|u units IH]; [done|]. cbn [sorted].
  by rewrite insert_unit_perm, IH.
Qed.

Section run.
Variable db : DB.
Hypothesis Hpk : primary_keys db.

Lemma time_slot_by_id s s' :
  s ∈ db_time_slots db → s' ∈ db_time_slots db → ts_id s = ts_id s' → s = s'.
Proof.
  destruct Hpk as (_ & _ & _ & _ & _ & _ & Hts & _).
  intros [i Hi]%list_elem_of_lookup [j Hj]%list_elem_of_lookup Heq.
  assert (i = j) as ->; [|congruence].
  eapply NoDup_lookup; [exact Hts| |];
    rewrite list_lookup_fmap; [by rewrite Hi|by rewrite Hj, Heq].
Qed.

Lemma initial_tracking_inv : tracking_inv db initial_tracking.
Proof.
  split; [constructor|]. intros k. cbn. split_and!; constructor.
Qed.

Lemma commit_inv unit room slot sg st :
  tracking_inv db st →
  unit ∈ db_units db → room ∈ db_rooms db → slot ∈ db_time_slots db →
  room_type room = (if unit_requires_lab unit then "lab" else "normal") →
  conflict unit room slot sg st = false →
  tracking_inv db (commit unit room slot sg st).
Proof.
  intros [Hsound Hfree] Hu Hr Hs Hty Hc.
  unfold conflict in Hc. cbv zeta in Hc.
  apply orb_false_iff in Hc as [Hc Hcs].
  apply orb_false_iff in Hc as [Hcl Hcr].
  apply bool_decide_eq_false in Hcl, Hcr, Hcs.
  split; cbn [commit timetable_entries].
  - apply Forall_app. split.
    + eapply Forall_impl; [exact Hsound|].
      intros e (u & r & s & g & ? & ? & ? & ? & ? & ? & ? & ?).
      exists u, r, s, g. cbn [commit lecturer_schedule room_schedule
                              student_schedule].
      split_and!; try done; by apply index_add_mono.
    + apply Forall_singleton. exists unit, room, slot, sg.
      cbn [commit lecturer_schedule room_schedule student_schedule].
      split_and!; try done; apply index_add_here.
  - intros k. destruct (Hfree k) as (Hl & Hr' & Hs').
    unfold at_slot. rewrite filter_app, filter_cons, filter_nil.
    destruct (decide _) as [Hk|Hk]; [|by rewrite app_nil_r].
    cbn [new_entry te_time_slot_id] in Hk. subst k.
    assert (∀ e, e ∈ at_slot (ts_id slot) (timetable_entries st) →
              ∃ u r g, booking e = booking (new_entry u r slot g) ∧
                slot_key slot ∈ lecturer_schedule st !!! unit_lecturer_id u ∧
                slot_key slot ∈ room_schedule st !!! room_id r ∧
                slot_key slot ∈ student_schedule st !!! sg_id g) as Hold.
    { intros e [He Hin]%list_elem_of_filter.
      rewrite Forall_forall in Hsound.
      destruct (Hsound e Hin)
        as (u & r & s & g & _ & _ & Hs0 & Hb & _ & ? & ? & ?).
      assert (s = slot) as ->.
      { apply time_slot_by_id; [done..|].
        unfold booking in Hb; cbn in Hb. congruence. }
      by exists u, r, g. }
    rewrite !fmap_app, !fmap_cons, !fmap_nil.
    split_and!; (apply NoDup_app; split_and!; [done| |apply NoDup_singleton]);
      intros x [e [-> He]]%list_elem_of_fmap Hx%list_elem_of_singleton;
      destruct (Hold e He) as (u & r & g & Hb & ? & ? & ?);
      unfold booking in Hb; cbn in Hb, Hx; congruence.
Qed.

Lemma choice_elem {A} (seq : list A) (r : nat) (x : A) :
  choice seq r = Ok x → x ∈ seq.
Proof.
  unfold choice. destruct (seq !! _) as [y|] eqn:Hy; [|done].
  intros [= <-]. by eapply list_elem_of_lookup_2.
Qed.

Lemma place_inv draws unit sg slots rooms remaining attempts st b n st' :
  tracking_inv db st →
  unit ∈ db_units db →
  (∀ s, s ∈ slots → s ∈ db_time_slots db) →
  (∀ r, r ∈ rooms →
     r ∈ db_rooms db ∧
     room_type r = (if unit_requires_lab unit then "lab" else "normal")) →
  place draws unit sg slots rooms remaining attempts st = Ok (b, n, st') →
  tracking_inv db st'.
Proof.
  intros Hinv Hu Hslots Hrooms. revert attempts st Hinv.
  induction remaining as [|k IH]; intros attempts st Hinv; cbn [place].
  { by intros [= _ _ <-]. }
  destruct (choice slots _) as [slot|] eqn:Hs; cbn [mbind result_bind];
    [|done].
  destruct (choice rooms _) as [room|] eqn:Hr; cbn [mbind result_bind];
    [|done].
  apply choice_elem in Hs, Hr.
  destruct (Hrooms room Hr) as [Hrdb Hty].
  destruct (conflict unit room slot sg (draw2 st)) eqn:Hc; cbn [negb].
  - apply IH. exact Hinv.
  - destruct (day_names !! _); [|done]. intros [= _ _ <-].
    apply commit_inv; auto.
Qed.

Lemma schedule_unit_inv draws unit st st' report :
  tracking_inv db st →
  unit ∈ db_units db →
  schedule_unit draws db (db_rooms db) (db_time_slots db) unit st
  = Ok (st', report) →
  tracking_inv db st'.
Proof.
  intros Hinv Hu. unfold schedule_unit.
  destruct (first_student_group _ _ _) as [sg|]; [|by intros [= <- _]].
  destruct (first_department _ _) as [dept|]; cbn; [|done].
  destruct (first_school _ _) as [school|]; cbn; [|done].
  set (rooms := if unit_requires_lab unit
                then filter (λ r, room_type r = "lab") (db_rooms db)
                else filter (λ r, room_type r = "normal") (db_rooms db)).
  set (slots := filter _ (db_time_slots db)).
  assert (∀ r, r ∈ rooms →
            r ∈ db_rooms db ∧
            room_type r = (if unit_requires_lab unit then "lab"
                           else "normal")) as Hrooms.
  { subst rooms. intros r.
    destruct (unit_requires_lab unit); rewrite list_elem_of_filter; tauto. }
  assert (∀ s, s ∈ slots → s ∈ db_time_slots db) as Hslots.
  { subst slots. intros s. rewrite list_elem_of_filter. tauto. }
  destruct rooms as [|r0 rooms0] eqn:Er; [by intros [= <- _]|].
  destruct slots as [|s0 slots0] eqn:Es; [by intros [= <- _]|].
  destruct (place _ _ _ _ _ _ _ _) as [[[b n] st1]|] eqn:Hp; cbn; [|done].
  intros [= <- _]. eapply place_inv; eauto.
Qed.

Lemma schedule_units_inv draws us st log st' log' :
  tracking_inv db st →
  (∀ u, u ∈ us → u ∈ db_units db) →
  schedule_units draws db (db_rooms db) (db_time_slots db) us st log
  = Ok (st', log') →
  tracking_inv db st'.
Proof.
  revert st log. induction us as [|u us IH]; intros st log Hinv Hus.
  { by intros [= <- _]. }
  cbn [schedule_units].
  destruct (schedule_unit _ _ _ _ _ _) as [[st1 report]|] eqn:Hu; cbn;
    [|done].
  apply IH.
  - eapply schedule_unit_inv; [done| |exact Hu]. apply Hus, list_elem_of_here.
  - intros ??. apply Hus. by apply list_elem_of_further.
Qed.

(** What every successful run returns: the entries are, up to the fields
    the store fills in, those of a tracking state that satisfies the
    invariant; units and rooms are not written. *)
Lemma generate_schedule_sound draws entries db' log :
  generate_schedule draws db = Ok (entries, db', log) →
  db_units db' = db_units db ∧ db_rooms db' = db_rooms db ∧
  ∃ st, tracking_inv db st ∧
        booking <$> entries = booking <$> timetable_entries st.
Proof.
  unfold generate_schedule. intros Hgen.
  assert ((entries = [] ∧ db' = db) ∨
          ∃ st log0,
            schedule_units draws db (db_rooms db) (db_time_slots db)
              (sorted (db_units db)) initial_tracking [] = Ok (st, log0) ∧
            entries = (add_all_entries db (timetable_entries st)).1 ∧
            db' = (add_all_entries db (timetable_entries st)).2) as [[-> ->]|H].
  { destruct (db_units db), (db_time_slots db), (db_rooms db);
      try (left; by simplify_eq);
      (destruct (schedule_units _ _ _ _ _ _ _) as [[st log0]|];
       cbn in Hgen; [|done]); right; exists st, log0; by simplify_eq. }
  - split_and!; [done..|]. exists initial_tracking.
    split; [apply initial_tracking_inv|done].
  - destruct H as (st & log0 & Hrun & -> & ->). split_and!; [done..|].
    exists st. split.
    + eapply schedule_units_inv; [apply initial_tracking_inv| |exact Hrun].
      intros u. by rewrite sorted_perm.
    + apply flush_entries_booking.
Qed.
End run.

Lemma place_commit_checked draws unit sg slots rooms remaining attempts st
    n st' :
  place draws unit sg slots rooms remaining attempts st = Ok (true, n, st') →
  ∃ slot room st0,
    slot ∈ slots ∧ room ∈ rooms ∧
    same_indexes st st0 ∧ timetable_entries st0 = timetable_entries st ∧
    (slot_key slot ∉ lecturer_schedule st0 !!! unit_lecturer_id unit) ∧
    (slot_key slot ∉ room_schedule st0 !!! room_id room) ∧
    (slot_key slot ∉ student_schedule st0 !!! sg_id sg) ∧
    st' = commit unit room slot sg st0 ∧
    slot_key slot ∈ lecturer_schedule st' !!! unit_lecturer_id unit ∧
    slot_key slot ∈ room_schedule st' !!! room_id room ∧
    slot_key slot ∈ student_schedule st' !!! sg_id sg.
Proof.
  revert attempts st. induction remaining as [|k IH]; intros attempts st;
    cbn [place]; [done|].
  destruct (choice slots _) as [slot|] eqn:Hs; cbn [mbind result_bind]; [|done].
  destruct (choice rooms _) as [room|] eqn:Hr; cbn [mbind result_bind]; [|done].
  apply choice_elem in Hs, Hr.
  destruct (conflict unit room slot sg (draw2 st)) eqn:Hc; cbn [negb].
  - intros Hp. destruct (IH _ _ Hp) as (slot' & room' & st0 & H).
    exists slot', room', st0. exact H.
  - destruct (day_names !! _); [|done]. intros [= _ <-].
    exists slot, room, (draw2 st).
    unfold conflict in Hc. cbv zeta in Hc.
    apply orb_false_iff in Hc as [Hc Hcs].
    apply orb_false_iff in Hc as [Hcl Hcr].
    apply bool_decide_eq_false in Hcl, Hcr, Hcs.
    split_and!; try done; apply index_add_here.
Qed.

Lemma generate_schedule_entries_resolve draws db entries db' log :
  primary_keys db →
  generate_schedule draws db = Ok (entries, db', log) →
  Forall (λ e, ∃ u r,
            first_unit db (te_unit_id e) = Some u ∧
            first_room db (te_room_id e) = Some r ∧
            room_type r = (if unit_requires_lab u then "lab" else "normal"))
         entries.
Proof.
  intros Hpk Hgen.
  destruct (generate_schedule_sound db Hpk _ _ _ _ Hgen)
    as (_ & _ & st & [Hsound _] & Hb).
  apply Forall_forall. intros e He.
  apply (list_elem_of_fmap_2 booking) in He. rewrite Hb in He.
  apply list_elem_of_fmap in He as (e0 & Hbe & He0).
  rewrite Forall_forall in Hsound.
  destruct (Hsound e0 He0) as (u & r & s & g & Hu & Hr & _ & Hb0 & Hty & _).
  rewrite Hb0 in Hbe. unfold booking in Hbe; cbn in Hbe.
  destruct Hpk as (_ & _ & Hrooms & _ & Hunits & _).
  exists u, r. split_and!; [| |done].
  - replace (te_unit_id e) with (Some (unit_id u)) by congruence.
    by apply (first_by_key unit_id).
  - replace (te_room_id e) with (Some (room_id r)) by congruence.
    by apply (first_by_key room_id).
Qed.

Lemma demo_db_primary_keys : primary_keys demo_db.
Proof.
  apply (bool_decide_unpack _). by vm_compute.
Qed.

Lemma demo_run :
  ∃ e1 e2 db',
    generate_schedule demo_draws demo_db
    = Ok ([e1; e2], db', [Scheduled 1; Scheduled 2]).
Proof. eexists _, _, _. vm_compute. reflexivity. Qed.

(** ** The generator: the returned timetable *)

(** C2: in the list a run returns, the entries that reference one time-slot
    id carry pairwise different lecturer ids, room ids and student-group ids.
    This rests on the three indexes: an entry is committed only for a drawn
    pair whose key [(day_of_week, start_time)] is in none of them, and the
    commit adds that key to all three. *)
Theorem generated_schedule_no_double_booking
    (draws : nat → nat) (db : DB) (entries : list TimetableEntry)
    (db' : DB) (log : list UnitReport) :
  primary_keys db →
  generate_schedule draws db = Ok (entries, db', log) →
  (∀ k, NoDup (te_lecturer_id <$> at_slot k entries) ∧
        NoDup (te_room_id <$> at_slot k entries) ∧
        NoDup (te_student_group_id <$> at_slot k entries)) ∧
  (∀ unit sg slots rooms max_attempts st n st',
     place draws unit sg slots rooms max_attempts 0 st = Ok (true, n, st') →
     ∃ slot room st0,
       slot ∈ slots ∧ room ∈ rooms ∧
       same_indexes st st0 ∧ timetable_entries st0 = timetable_entries st ∧
       (slot_key slot ∉ lecturer_schedule st0 !!! unit_lecturer_id unit) ∧
       (slot_key slot ∉ room_schedule st0 !!! room_id room) ∧
       (slot_key slot ∉ student_schedule st0 !!! sg_id sg) ∧
       st' = commit unit room slot sg st0 ∧
       slot_key slot ∈ lecturer_schedule st' !!! unit_lecturer_id unit ∧
       slot_key slot ∈ room_schedule st' !!! room_id room ∧
       slot_key slot ∈ student_schedule st' !!! sg_id sg).
Proof.
  intros Hpk Hgen. split; [|intros *; apply place_commit_checked].
  destruct (generate_schedule_sound db Hpk _ _ _ _ Hgen)
    as (_ & _ & st & [_ Hfree] & Hb).
  by apply (no_double_booking_booking (timetable_entries st)).
Qed.

Lemma generated_schedule_no_double_booking_witness :
  ∃ entries db' log,
    generate_schedule demo_draws demo_db = Ok (entries, db', log) ∧
    length entries = 2%nat ∧
    NoDup (te_lecturer_id <$> at_slot (Some 1) entries).
Proof.
  eexists _, _, _. split; [vm_compute; reflexivity|]. split; [reflexivity|].
  refine (proj1 (proj1 (generated_schedule_no_double_booking
                          demo_draws demo_db _ _ _ _ _) (Some 1))).
  - apply (bool_decide_unpack _). by vm_compute.
  - by vm_compute.
Defined.

(** C3: every entry a run returns references a unit and a room of the store,
    and the room's type is "lab" when the unit requires a lab and "normal"
    when it does not. *)
Theorem generated_schedule_room_types
    (draws : nat → nat) (db : DB) (entries : list TimetableEntry)
    (db' : DB) (log : list UnitReport) :
  primary_keys db →
  generate_schedule draws db = Ok (entries, db', log) →
  ∀ e, e ∈ entries →
    ∃ unit room,
      first_unit db (te_unit_id e) = Some unit ∧
      first_room db (te_room_id e) = Some room ∧
      (if unit_requires_lab unit
       then room_type room = "lab" else room_type room = "normal").
Proof.
  intros Hpk Hgen e He.
  pose proof (generate_schedule_entries_resolve _ _ _ _ _ Hpk Hgen) as Hall.
  rewrite Forall_forall in Hall.
  destruct (Hall e He) as (u & r & Hu & Hr & Hty).
  exists u, r. split_and!; [done..|]. by destruct (unit_requires_lab u).
Qed.

Lemma generated_schedule_room_types_witness :
  ∃ e entries db' log,
    generate_schedule demo_draws demo_db = Ok (e :: entries, db', log) ∧
    ∃ unit room,
      first_unit demo_db (te_unit_id e) = Some unit ∧
      first_room demo_db (te_room_id e) = Some room ∧
      (if unit_requires_lab unit
       then room_type room = "lab" else room_type room = "normal").
Proof.
  eexists _, _, _, _. split; [vm_compute; reflexivity|].
  refine (generated_schedule_room_types demo_draws demo_db _ _ _ _ _ _ _).
  - apply (bool_decide_unpack _). by vm_compute.
  - by vm_compute.
  - apply list_elem_of_here.
Defined.

(** C1: the list a run returns passes [validate_constraints] on the store the
    run leaves (and on the store it started from): [is_valid] is true and
    there is no conflict. *)
Theorem generated_schedule_validates
    (draws : nat → nat) (db : DB) (entries : list TimetableEntry)
    (db' : DB) (log : list UnitReport) :
  primary_keys db →
  generate_schedule draws db = Ok (entries, db', log) →
  validate_constraints db' entries
  = {| is_valid := true; conflicts := []; warnings := [] |} ∧
  validate_constraints db entries
  = {| is_valid := true; conflicts := []; warnings := [] |}.
Proof.
  intros Hpk Hgen.
  destruct (generate_schedule_sound db Hpk _ _ _ _ Hgen)
    as (Hunits & Hrooms & st & [_ Hfree] & Hb).
  assert (validate_constraints db entries
          = {| is_valid := true; conflicts := []; warnings := [] |}) as Hv.
  { unfold validate_constraints.
    rewrite double_booking_conflicts_nil
      by by apply (no_double_booking_booking (timetable_entries st)).
    rewrite lab_conflicts_nil; [done|].
    pose proof (generate_schedule_entries_resolve _ _ _ _ _ Hpk Hgen) as Hall.
    rewrite Forall_forall in Hall.
    intros e He. destruct (Hall e He) as (u & r & Hu & Hr & Hty).
    unfold lab_conflicts. rewrite Hu, Hr, Hty.
    by destruct (unit_requires_lab u). }
  split; [|done]. rewrite <- Hv. unfold validate_constraints, lab_conflicts,
    first_unit, first_room. by rewrite Hunits, Hrooms.
Qed.

Lemma generated_schedule_validates_witness :
  ∃ entries db' log,
    generate_schedule demo_draws demo_db = Ok (entries, db', log) ∧
    length entries = 2%nat ∧
    validate_constraints db' entries
    = {| is_valid := true; conflicts := []; warnings := [] |}.
Proof.
  eexists _, _, _. split; [vm_compute; reflexivity|]. split; [reflexivity|].
  refine (proj1 (generated_schedule_validates demo_draws demo_db _ _ _ _ _)).
  - apply (bool_decide_unpack _). by vm_compute.
  - by vm_compute.
Defined.

(** ** The generator: when a run returns *)

Lemma choice_nonempty {A} (seq : list A) (r : nat) :
  seq ≠ [] → ∃ x, choice seq r = Ok x.
Proof.
  intros Hne. unfold choice.
  destruct (lookup_lt_is_Some_2 seq (r `mod` length seq)) as [x ->]; [|eauto].
  apply Nat.mod_upper_bound. by destruct seq.
Qed.

Lemma day_names_lookup (d : Z) : 1 ≤ d ≤ 5 → is_Some (day_names !! d).
Proof.
  intros Hd.
  assert (d = 1 ∨ d = 2 ∨ d = 3 ∨ d = 4 ∨ d = 5) as Hcases by lia.
  destruct Hcases as [->|[->|[->|[->| ->]]]]; by eexists.
Qed.

Lemma place_returns draws unit sg slots rooms remaining attempts st :
  slots ≠ [] → rooms ≠ [] →
  (∀ s, s ∈ slots → 1 ≤ ts_day_of_week s ≤ 5) →
  ∃ r, place draws unit sg slots rooms remaining attempts st = Ok r.
Proof.
  intros Hs Hr Hdays. revert attempts st.
  induction remaining as [|k IH]; intros attempts st; cbn [place]; [eauto|].
  destruct (choice_nonempty slots (draws (rng_pos st)) Hs) as [slot Hslot].
  destruct (choice_nonempty rooms (draws (S (rng_pos st))) Hr)
    as [room Hroom].
  rewrite Hslot, Hroom. cbn [mbind result_bind].
  destruct (conflict _ _ _ _ _); cbn [negb]; [apply IH|].
  destruct (day_names_lookup (ts_day_of_week slot)) as [name ->]; [|eauto].
  apply Hdays. by eapply choice_elem.
Qed.

Lemma schedule_unit_returns draws db unit st :
  schools_resolve db → days_in_week db → unit ∈ db_units db →
  ∃ r, schedule_unit draws db (db_rooms db) (db_time_slots db) unit st = Ok r.
Proof.
  intros Hres Hdays Hu. unfold schedule_unit.
  specialize (Hres unit Hu).
  destruct (first_student_group _ _ _) as [sg|]; [|eauto].
  destruct Hres as (dept & school & -> & Hschool); [eauto|].
  cbn. rewrite Hschool. cbn.
  destruct (if unit_requires_lab unit then _ else _) as [|r0 rooms]; [eauto|].
  destruct (filter _ (db_time_slots db)) as [|s0 slots] eqn:Es; [eauto|].
  edestruct (place_returns draws unit sg (s0 :: slots) (r0 :: rooms))
    as [[[b n] st'] ->]; [done|done| |cbn; eauto].
  intros s Hin. apply Hdays. rewrite <- Es in Hin.
  by apply list_elem_of_filter in Hin as [_ ?].
Qed.

Lemma schedule_units_returns draws db us st log :
  schools_resolve db → days_in_week db →
  (∀ u, u ∈ us → u ∈ db_units db) →
  ∃ r, schedule_units draws db (db_rooms db) (db_time_slots db) us st log
       = Ok r.
Proof.
  intros Hres Hdays. revert st log.
  induction us as [|u us IH]; intros st log Hus; cbn [schedule_units];
    [eauto|].
  destruct (schedule_unit_returns draws db u st) as [[st' report] ->];
    [done|done|apply Hus, list_elem_of_here|].
  cbn. apply IH. intros ??. apply Hus. by apply list_elem_of_further.
Qed.

(** On a store whose units' schools resolve and whose slots lie on days
    1..5, every run returns: the remaining failures (no group, no room of
    the kind, no slot of the profile, attempts used up) only skip units. *)
Lemma generate_schedule_returns draws db :
  schools_resolve db → days_in_week db →
  ∃ entries db' log, generate_schedule draws db = Ok (entries, db', log).
Proof.
  intros Hres Hdays. unfold generate_schedule.
  destruct (schedule_units_returns draws db (sorted (db_units db))
              initial_tracking [] Hres Hdays) as [[st log] Hrun].
  { intros u. by rewrite sorted_perm. }
  destruct (db_units db), (db_time_slots db), (db_rooms db); try by eauto.
  rewrite Hrun. cbn. eauto.
Qed.

Lemma sorted_demo :
  unit_code <$> sorted (db_units demo_db) = ["COMP102"; "COMP101"].
Proof. reflexivity. Qed.

(** * Further properties *)

(** ** The validator, in full *)

Lemma bind_nil_iff {A B} (f : A → list B) (l : list A) :
  l ≫= f = [] ↔ ∀ x, x ∈ l → f x = [].
Proof.
  induction l as [|x l IH]; cbn.
  - split; [|done]. intros _ x Hx. by apply elem_of_nil in Hx.
  - split.
    + intros [Hx Hl]%app_eq_nil y [->|Hy]%elem_of_cons; [done|].
      by apply IH.
    + intros H. rewrite (H x) by apply list_elem_of_here. cbn.
      apply IH. intros y Hy. apply H. by apply list_elem_of_further.
Qed.

Lemma double_booking_conflicts_nil_iff (l : list TimetableEntry) :
  slot_bookings l ≫= double_booking_conflicts = [] ↔ no_double_booking l.
Proof.
  split; [|apply double_booking_conflicts_nil].
  rewrite bind_nil_iff. intros Hnil k.
  destruct (decide (k ∈ (slot_bookings l).*1)) as [Hk|Hk].
  - apply list_elem_of_fmap in Hk as ([k' es] & -> & Hin). cbn.
    pose proof (Hnil _ Hin) as Hc.
    apply slot_bookings_at_slot in Hin as ->.
    unfold double_booking_conflicts in Hc; cbn [fst snd] in Hc.
    destruct (has_duplicates (te_lecturer_id <$> _)) eqn:El; [done|].
    destruct (has_duplicates (te_room_id <$> _)) eqn:Er; [done|].
    destruct (has_duplicates (te_student_group_id <$> _)) eqn:Es; [done|].
    by rewrite <- !has_duplicates_false.
  - replace (at_slot k l) with (@nil TimetableEntry);
      [split_and!; constructor|].
    symmetry. apply elem_of_nil_inv.
    intros e [He Hin]%list_elem_of_filter. apply Hk.
    apply slot_bookings_keys. eauto.
Qed.

Lemma lab_conflicts_nil_iff (db : DB) (e : TimetableEntry) :
  lab_conflicts db e = [] ↔ lab_ok db e.
Proof.
  unfold lab_conflicts, lab_ok.
  destruct (first_unit _ _) as [u|]; [|by split].
  destruct (first_room _ _) as [r|]; [|by split].
  destruct (unit_requires_lab u) eqn:Hlab; cbn.
  - case_bool_decide as Hty; cbn.
    + split; [|done]. by intros _ ?? [= <-] [= <-] _.
    + split; [done|]. intros H. destruct Hty. by apply (H u r).
  - split; [|done]. intros _ ?? [= <-] [= <-] ?. congruence.
Qed.

Lemma validate_valid_iff (db : DB) (l : list TimetableEntry) :
  is_valid (validate_constraints db l) = true
  ↔ no_double_booking l ∧ ∀ e, e ∈ l → lab_ok db e.
Proof.
  rewrite is_valid_iff. unfold validate_constraints; cbn [conflicts].
  split.
  - intros [H1 H2]%app_eq_nil.
    split; [by apply double_booking_conflicts_nil_iff|].
    intros e He. apply lab_conflicts_nil_iff.
    by apply (proj1 (bind_nil_iff _ _) H2).
  - intros [H1 H2].
    rewrite (proj2 (double_booking_conflicts_nil_iff _) H1). cbn.
    apply bind_nil_iff. intros e He. apply lab_conflicts_nil_iff. auto.
Qed.

(** X1: [validate_constraints] accepts a list exactly when no time-slot id
    of the list carries a lecturer id, a room id or a student-group id twice
    (NULL ids compare equal) and every entry whose unit and room both
    resolve passes the lab check; a unit that needs no lab may sit in a
    lab. *)
Theorem validate_constraints_verdict (db : DB) (l : list TimetableEntry) :
  is_valid (validate_constraints db l) = true
  ↔ (∀ k, NoDup (te_lecturer_id <$> at_slot k l) ∧
          NoDup (te_room_id <$> at_slot k l) ∧
          NoDup (te_student_group_id <$> at_slot k l)) ∧
    (∀ e unit room,
       e ∈ l →
       first_unit db (te_unit_id e) = Some unit →
       first_room db (te_room_id e) = Some room →
       unit_requires_lab unit = true → room_type room = "lab").
Proof.
  rewrite validate_valid_iff. unfold no_double_booking, lab_ok.
  split; intros [Hnd Hlab]; (split; [done|]); eauto.
Qed.

Lemma validate_constraints_verdict_witness :
  is_valid (validate_constraints demo_db
    [ {| te_id := Some 1; te_unit_id := Some 1; te_lecturer_id := Some 7;
         te_room_id := Some 2; te_time_slot_id := Some 1;
         te_student_group_id := Some 1; te_week_type := Some "all" |} ])
  = true.
Proof.
  refine (proj2 (validate_constraints_verdict demo_db _) _). split.
  - intros k. unfold at_slot. rewrite filter_cons, filter_nil.
    case_decide; cbn; split_and!;
      solve [apply NoDup_nil_2 | apply NoDup_singleton].
  - intros e unit room ->%list_elem_of_singleton.
    intros [= <-] [= <-]. done.
Defined.

Lemma conflict_reported (f : TimetableEntry → option Z) (msg : string)
    (db : DB) (l : list TimetableEntry) (e : TimetableEntry) :
  e ∈ l →
  ¬ NoDup (f <$> at_slot (te_time_slot_id e) l) →
  (∀ item, has_duplicates (f <$> item.2) = true →
           msg +:+ py_str item.1 ∈ double_booking_conflicts item) →
  msg +:+ py_str (te_time_slot_id e) ∈ conflicts (validate_constraints db l)
  ∧ is_valid (validate_constraints db l) = false.
Proof.
  intros He Hdup Hitem.
  assert (msg +:+ py_str (te_time_slot_id e)
            ∈ conflicts (validate_constraints db l)) as Hmsg.
  { unfold validate_constraints; cbn [conflicts].
    apply elem_of_app; left. apply list_elem_of_bind.
    exists (te_time_slot_id e, at_slot (te_time_slot_id e) l). split.
    - apply (Hitem (_, _)). cbn [snd]. by apply has_duplicates_true.
    - by apply slot_bookings_covers. }
  split; [done|].
  destruct (is_valid _) eqn:E; [|done].
  apply is_valid_iff in E. rewrite E in Hmsg. by apply elem_of_nil in Hmsg.
Qed.

Lemma at_slot_duplicate_any {B} (f : TimetableEntry → B)
    (l : list TimetableEntry) (i j : nat) (e1 e2 : TimetableEntry) :
  i ≠ j → l !! i = Some e1 → l !! j = Some e2 →
  te_time_slot_id e1 = te_time_slot_id e2 → f e1 = f e2 →
  ¬ NoDup (f <$> at_slot (te_time_slot_id e1) l).
Proof.
  intros Hij H1 H2 Hslot Hf.
  destruct (decide (i < j)%nat).
  - by eapply at_slot_duplicate.
  - rewrite Hslot. eapply (at_slot_duplicate _ l j i e2 e1); eauto; lia.
Qed.

(** X2: when two entries of the list share a time-slot id and a room id,
    the conflicts contain ["Room double-booked in time slot <id>"]; when they
    share the slot id and a student-group id, ["Student group double-booked
    in time slot <id>"]; either way [is_valid] is false.  NULL ids count as
    shared. *)
Theorem validate_reports_room_and_group_double_booking
    (db : DB) (l : list TimetableEntry) (i j : nat) (e1 e2 : TimetableEntry) :
  i ≠ j → l !! i = Some e1 → l !! j = Some e2 →
  te_time_slot_id e1 = te_time_slot_id e2 →
  (te_room_id e1 = te_room_id e2 →
   "Room double-booked in time slot " +:+ py_str (te_time_slot_id e1)
     ∈ conflicts (validate_constraints db l) ∧
   is_valid (validate_constraints db l) = false) ∧
  (te_student_group_id e1 = te_student_group_id e2 →
   "Student group double-booked in time slot "
     +:+ py_str (te_time_slot_id e1)
     ∈ conflicts (validate_constraints db l) ∧
   is_valid (validate_constraints db l) = false).
Proof.
  intros Hij H1 H2 Hslot.
  assert (e1 ∈ l) as He1 by by eapply list_elem_of_lookup_2.
  split; intros Heq.
  - apply (conflict_reported te_room_id); [done| |].
    + by eapply at_slot_duplicate_any.
    + intros item Hd. unfold double_booking_conflicts. cbv zeta.
      rewrite Hd. apply elem_of_app; right. apply list_elem_of_here.
  - apply (conflict_reported te_student_group_id); [done| |].
    + by eapply at_slot_duplicate_any.
    + intros item Hd. unfold double_booking_conflicts. cbv zeta.
      rewrite Hd. apply elem_of_app; right. apply elem_of_app; right.
      apply list_elem_of_here.
Qed.

Lemma validate_reports_room_and_group_double_booking_witness :
  "Room double-booked in time slot None"
    ∈ conflicts (validate_constraints empty_db [roomless_a; roomless_b]).
Proof.
  exact (proj1 (proj1 (validate_reports_room_and_group_double_booking
                         empty_db [roomless_a; roomless_b] 0 1
                         roomless_a roomless_b
                         ltac:(lia) eq_refl eq_refl eq_refl) eq_refl)).
Defined.

(** X3: an entry whose unit requires a lab and whose room is not of type
    "lab" (both present in the store) puts ["Lab unit <code> assigned to
    non-lab room <name>"] among the conflicts and makes the list invalid. *)
Theorem validate_reports_lab_mismatch
    (db : DB) (l : list TimetableEntry) (e : TimetableEntry)
    (unit : Unit) (room : Room) :
  e ∈ l →
  first_unit db (te_unit_id e) = Some unit →
  first_room db (te_room_id e) = Some room →
  unit_requires_lab unit = true →
  room_type room ≠ "lab" →
  "Lab unit " +:+ unit_code unit +:+ " assigned to non-lab room "
    +:+ room_name room ∈ conflicts (validate_constraints db l) ∧
  is_valid (validate_constraints db l) = false.
Proof.
  intros He Hu Hr Hlab Hty.
  assert ("Lab unit " +:+ unit_code unit +:+ " assigned to non-lab room "
            +:+ room_name room ∈ conflicts (validate_constraints db l))
    as Hmsg.
  { unfold validate_constraints; cbn [conflicts].
    apply elem_of_app; right. apply list_elem_of_bind. exists e.
    split; [|done]. unfold lab_conflicts. rewrite Hu, Hr, Hlab.
    rewrite bool_decide_eq_false_2 by done. apply list_elem_of_here. }
  split; [done|].
  destruct (is_valid _) eqn:E; [|done].
  apply is_valid_iff in E. rewrite E in Hmsg. by apply elem_of_nil in Hmsg.
Qed.

Lemma validate_reports_lab_mismatch_witness :
  "Lab unit COMP102 assigned to non-lab room LH1"
    ∈ conflicts (validate_constraints demo_db [lab_in_hall]).
Proof.
  assert (room_type {| room_id := 1; room_name := "LH1"; room_capacity := 40;
                       room_type := "normal" |} ≠ "lab") as Hty by done.
  exact (proj1 (validate_reports_lab_mismatch demo_db [lab_in_hall]
                  lab_in_hall _ _ (list_elem_of_here _ _)
                  eq_refl eq_refl eq_refl Hty)).
Defined.

Lemma filter_fmap_comm {A B} (f : A → B) (P : B → Prop)
    `{∀ y, Decision (P y)} (l : list A) :
  filter P (f <$> l) = f <$> filter (λ x, P (f x)) l.
Proof.
  induction l as [|x l IH]; [done|].
  rewrite fmap_cons, !filter_cons. case_decide; by rewrite ?fmap_cons, IH.
Qed.

Lemma no_double_booking_perm (l l' : list TimetableEntry) :
  booking <$> l ≡ₚ booking <$> l' → no_double_booking l → no_double_booking l'.
Proof.
  intros Hp Hnd k.
  assert (∀ (g : option Z * option Z * option Z * option Z * option Z
                 → option Z) m,
            g <$> filter (λ b, b.1.2 = k) (booking <$> m)
            = (λ e, g (booking e)) <$> at_slot k m) as Hview.
  { intros g m. unfold at_slot. rewrite filter_fmap_comm.
    by rewrite <- list_fmap_compose. }
  destruct (Hnd k) as (Hl & Hr & Hs).
  pose proof (Hview (λ b, b.1.1.1.2) l) as Vl.
  pose proof (Hview (λ b, b.1.1.2) l) as Vr.
  pose proof (Hview (λ b, b.2) l) as Vs.
  pose proof (Hview (λ b, b.1.1.1.2) l') as Vl'.
  pose proof (Hview (λ b, b.1.1.2) l') as Vr'.
  pose proof (Hview (λ b, b.2) l') as Vs'.
  cbn in Vl, Vr, Vs, Vl', Vr', Vs'.
  change (NoDup ((λ e, te_lecturer_id e) <$> at_slot k l'
          ) ∧ NoDup ((λ e, te_room_id e) <$> at_slot k l')
          ∧ NoDup ((λ e, te_student_group_id e) <$> at_slot k l')).
  rewrite <- Vl', <- Vr', <- Vs', <- Hp, Vl, Vr, Vs. done.
Qed.

(** X4: the verdict depends only on which five-reference bookings the list
    holds, not on their order, their ids or their week type: two lists whose
    bookings are permutations of each other get the same [is_valid]. *)
Theorem validate_verdict_order_independent
    (db : DB) (l l' : list TimetableEntry) :
  booking <$> l ≡ₚ booking <$> l' →
  is_valid (validate_constraints db l)
  = is_valid (validate_constraints db l').
Proof.
  assert (∀ m m', booking <$> m ≡ₚ booking <$> m' →
            is_valid (validate_constraints db m) = true →
            is_valid (validate_constraints db m') = true) as Hone.
  { intros m m' Hp. rewrite !validate_valid_iff. intros [Hnd Hlab].
    split; [by eapply no_double_booking_perm|].
    intros e' He'.
    apply (list_elem_of_fmap_2 booking) in He'. rewrite <- Hp in He'.
    apply list_elem_of_fmap in He' as (e & Hb & He).
    specialize (Hlab e He). unfold lab_ok in *.
    unfold booking in Hb.
    replace (te_unit_id e') with (te_unit_id e) by congruence.
    replace (te_room_id e') with (te_room_id e) by congruence. done. }
  intros Hp.
  destruct (is_valid (validate_constraints db l)) eqn:E.
  - symmetry. by eapply Hone.
  - destruct (is_valid (validate_constraints db l')) eqn:E'; [|done].
    rewrite <- E. eapply Hone; [|exact E']. by symmetry.
Qed.

Lemma validate_verdict_order_independent_witness :
  is_valid (validate_constraints demo_db [clash_a; clash_b])
  = is_valid (validate_constraints demo_db [clash_b; clash_a]).
Proof.
  apply validate_verdict_order_independent. apply Permutation_swap.
Defined.

(** ** The generator: the shape of a run *)

Lemma flush_entries_length next l :
  length (flush_entries next l) = length l.
Proof. revert next. induction l; intros; cbn; auto. Qed.

Lemma day_names_Some (d : Z) : is_Some (day_names !! d) → 1 ≤ d ≤ 5.
Proof.
  intros [name Hname].
  destruct (decide (1 ≤ d ≤ 5)) as [|Hout]; [done|]. exfalso.
  unfold day_names in Hname. cbn in Hname.
  rewrite !lookup_insert_ne, lookup_empty in Hname by lia. done.
Qed.

Lemma place_run db draws unit sg dept school slots rooms remaining attempts
    st b n st' :
  run_state db st →
  unit ∈ db_units db →
  first_student_group db (unit_department_id unit) (unit_year_level unit)
    = Some sg →
  first_department db (unit_department_id unit) = Some dept →
  first_school db (department_school_id dept) = Some school →
  (∀ s, s ∈ slots →
     s ∈ db_time_slots db ∧
     ts_session_type s = (if bool_decide (school_code school = "SPAS")
                          then "spas_3h" else "shs_2h")) →
  (∀ r, r ∈ rooms →
     r ∈ db_rooms db ∧
     room_type r = (if unit_requires_lab unit then "lab" else "normal")) →
  place draws unit sg slots rooms remaining attempts st = Ok (b, n, st') →
  run_state db st' ∧
  ∃ es, timetable_entries st' = timetable_entries st ++ es ∧
        (if b then ∃ room slot, es = [new_entry unit room slot sg]
         else es = []).
Proof.
  intros Hrun Hu Hsg Hdept Hschool Hslots Hrooms. revert attempts st Hrun.
  induction remaining as [|k IH]; intros attempts st Hrun; cbn [place].
  { intros [= <- _ <-]. split; [done|]. exists []. by rewrite app_nil_r. }
  destruct (choice slots _) as [slot|] eqn:Hs; cbn [mbind result_bind];
    [|done].
  destruct (choice rooms _) as [room|] eqn:Hr; cbn [mbind result_bind];
    [|done].
  apply choice_elem in Hs, Hr.
  destruct (Hrooms room Hr) as [Hrdb Hty].
  destruct (Hslots slot Hs) as [Hsdb Hsty].
  destruct (conflict unit room slot sg (draw2 st)) eqn:Hc; cbn [negb].
  - intros Hp. apply IH in Hp; [|by constructor]. exact Hp.
  - destruct (day_names !! _) eqn:Hday; [|done]. intros [= <- _ <-]. split.
    + eapply run_commit; eauto; [by constructor|].
      apply day_names_Some. eauto.
    + eexists. split; [reflexivity|]. eauto.
Qed.

Lemma schedule_unit_run db draws unit st st' report :
  run_state db st →
  unit ∈ db_units db →
  schedule_unit draws db (db_rooms db) (db_time_slots db) unit st
  = Ok (st', report) →
  run_state db st' ∧
  ∃ es, timetable_entries st' = timetable_entries st ++ es ∧
        (if is_scheduled report
         then ∃ room slot sg, es = [new_entry unit room slot sg]
         else es = []).
Proof.
  intros Hrun Hu. unfold schedule_unit.
  destruct (first_student_group _ _ _) as [sg|] eqn:Hsg;
    [|intros [= <- <-]; split; [done|]; exists []; by rewrite app_nil_r].
  destruct (first_department _ _) as [dept|] eqn:Hdept; cbn; [|done].
  destruct (first_school _ _) as [school|] eqn:Hschool; cbn; [|done].
  set (rooms := if unit_requires_lab unit
                then filter (λ r, room_type r = "lab") (db_rooms db)
                else filter (λ r, room_type r = "normal") (db_rooms db)).
  set (slots := filter _ (db_time_slots db)).
  assert (∀ r, r ∈ rooms →
            r ∈ db_rooms db ∧
            room_type r = (if unit_requires_lab unit then "lab"
                           else "normal")) as Hrooms.
  { subst rooms. intros r.
    destruct (unit_requires_lab unit); rewrite list_elem_of_filter; tauto. }
  assert (∀ s, s ∈ slots →
            s ∈ db_time_slots db ∧
            ts_session_type s = (if bool_decide (school_code school = "SPAS")
                                 then "spas_3h" else "shs_2h")) as Hslots.
  { subst slots. intros s. rewrite list_elem_of_filter. tauto. }
  destruct rooms as [|r0 rooms0] eqn:Er;
    [intros [= <- <-]; split; [done|]; exists []; by rewrite app_nil_r|].
  destruct slots as [|s0 slots0] eqn:Es;
    [intros [= <- <-]; split; [done|]; exists []; by rewrite app_nil_r|].
  destruct (place _ _ _ _ _ _ _ _) as [[[b n] st1]|] eqn:Hp; cbn; [|done].
  intros [= <- <-].
  destruct (place_run db _ _ _ _ _ _ _ _ _ _ _ _ _
              Hrun Hu Hsg Hdept Hschool Hslots Hrooms Hp) as [Hrun' (es & He & Hb)].
  split; [done|]. exists es. split; [done|].
  destruct b; cbn; [|done]. destruct Hb as (room & slot & ->). eauto.
Qed.

Lemma schedule_units_run db draws us st log st' log' :
  run_state db st →
  (∀ u, u ∈ us → u ∈ db_units db) →
  schedule_units draws db (db_rooms db) (db_time_slots db) us st log
  = Ok (st', log') →
  run_state db st' ∧
  ∃ es reports,
    timetable_entries st' = timetable_entries st ++ es ∧
    log' = log ++ reports ∧
    length reports = length us ∧
    length es = scheduled_count reports ∧
    te_unit_id <$> es `sublist_of` (λ u, Some (unit_id u)) <$> us.
Proof.
  revert st log. induction us as [|u us IH]; intros st log Hrun Hus.
  { intros [= <- <-]. split; [done|]. exists [], [].
    rewrite !app_nil_r. by split_and!. }
  cbn [schedule_units].
  destruct (schedule_unit _ _ _ _ _ _) as [[st1 report]|] eqn:Hu; cbn;
    [|done].
  intros Hrest.
  destruct (schedule_unit_run db _ _ _ _ _ Hrun
              (Hus u (list_elem_of_here _ _)) Hu) as [Hrun1 (es1 & He1 & Hr1)].
  assert (∀ v, v ∈ us → v ∈ db_units db) as Hus'
    by (intros ??; apply Hus; by apply list_elem_of_further).
  destruct (IH st1 (log ++ [report]) Hrun1 Hus' Hrest)
    as [Hrun' (es & reports & He & Hl & Hlen & Hcount & Hsub)].
  split; [done|]. exists (es1 ++ es), (report :: reports).
  split_and!.
  - by rewrite He, He1, app_assoc.
  - by rewrite Hl, <- app_assoc.
  - cbn. by rewrite Hlen.
  - unfold scheduled_count in *. rewrite length_app, filter_cons, Hcount.
    destruct (is_scheduled report) eqn:Er.
    + destruct Hr1 as (? & ? & ? & ->). rewrite decide_True by done. done.
    + rewrite Hr1, decide_False by congruence. done.
  - rewrite fmap_app.
    destruct (is_scheduled report).
    + destruct Hr1 as (? & ? & ? & ->). cbn. by apply sublist_skip.
    + rewrite Hr1. cbn. by apply sublist_cons.
Qed.

(** What a returning call of [generate_schedule] is made of. *)
Lemma generate_schedule_run draws db entries db' log :
  generate_schedule draws db = Ok (entries, db', log) →
  ∃ st,
    run_state db st ∧
    entries = flush_entries (db_timetable_entry_seq db) (timetable_entries st) ∧
    ((entries = [] ∧ db' = db ∧ log = []) ∨
     db' = (add_all_entries db (timetable_entries st)).2 ∧
     length log = length (db_units db) ∧
     length entries = scheduled_count log) ∧
    te_unit_id <$> timetable_entries st
      `sublist_of` (λ u, Some (unit_id u)) <$> sorted (db_units db).
Proof.
  unfold generate_schedule. intros Hgen.
  assert ((entries = [] ∧ db' = db ∧ log = []) ∨
          ∃ st,
            schedule_units draws db (db_rooms db) (db_time_slots db)
              (sorted (db_units db)) initial_tracking [] = Ok (st, log) ∧
            entries = (add_all_entries db (timetable_entries st)).1 ∧
            db' = (add_all_entries db (timetable_entries st)).2)
    as [(-> & -> & ->)|(st & Hrun & -> & ->)].
  { destruct (db_units db), (db_time_slots db), (db_rooms db);
      try (left; by simplify_eq);
      (destruct (schedule_units _ _ _ _ _ _ _) as [[st log0]|];
       cbn in Hgen; [|done]); right; exists st; by simplify_eq. }
  - exists initial_tracking. split_and!; [constructor|done|by left|].
    apply sublist_nil_l.
  - apply schedule_units_run in Hrun; [|constructor|].
    2:{ intros u. by rewrite sorted_perm. }
    destruct Hrun as [Hrun (es & reports & He & Hl & Hlen & Hcount & Hsub)].
    cbn in He, Hl. subst es reports.
    exists st. split_and!; [done|done| |done].
    right. split_and!; [done| |].
    + rewrite Hlen. apply Permutation_length, sorted_perm.
    + cbn. by rewrite flush_entries_length.
Qed.

Lemma flush_entries_unit_ids next l :
  te_unit_id <$> flush_entries next l = te_unit_id <$> l.
Proof.
  revert next. induction l as [|e l IH]; intros next; [done|].
  cbn [flush_entries]. rewrite !fmap_cons, IH. done.
Qed.

(** X5: a run makes at most one entry per unit, in the order in which it
    processes the units (lab units first, then by year): the unit ids of the
    returned entries are a subsequence of the unit ids in priority order.
    The number of entries is the number of units reported as scheduled, and
    unless the call exits early there is one report per unit.  With unique
    unit ids no unit id occurs twice in the result. *)
Theorem generate_schedule_one_entry_per_unit
    (draws : nat → nat) (db : DB) (entries : list TimetableEntry)
    (db' : DB) (log : list UnitReport) :
  generate_schedule draws db = Ok (entries, db', log) →
  te_unit_id <$> entries
    `sublist_of` (λ u, Some (unit_id u)) <$> sorted (db_units db) ∧
  length entries = scheduled_count log ∧
  (length entries ≤ length (db_units db))%nat ∧
  (log = [] ∨ length log = length (db_units db)) ∧
  (NoDup (unit_id <$> db_units db) → NoDup (te_unit_id <$> entries)).
Proof.
  intros Hgen.
  destruct (generate_schedule_run _ _ _ _ _ Hgen)
    as (st & _ & -> & Hcases & Hsub).
  rewrite flush_entries_unit_ids, flush_entries_length.
  assert (length (timetable_entries st) ≤ length (db_units db))%nat as Hlen.
  { apply sublist_length in Hsub. rewrite !length_fmap in Hsub.
    by rewrite (Permutation_length (sorted_perm _)) in Hsub. }
  split_and!; [done| |done| |].
  - destruct Hcases as [(He & _ & ->)|(_ & _ & Hc)].
    + apply (f_equal length) in He. rewrite flush_entries_length in He.
      by rewrite He.
    + by rewrite flush_entries_length in Hc.
  - destruct Hcases as [(_ & _ & ->)|(_ & Hl & _)]; auto.
  - intros Hnd. eapply sublist_NoDup; [|exact Hsub].
    rewrite (list_fmap_compose unit_id Some).
    apply (NoDup_fmap_2 _). by rewrite sorted_perm.
Qed.

Lemma generate_schedule_one_entry_per_unit_witness :
  ∃ entries db' log,
    generate_schedule demo_draws demo_db = Ok (entries, db', log) ∧
    te_unit_id <$> entries = [Some 2; Some 1] ∧
    length entries = scheduled_count log.
Proof.
  eexists _, _, _. split; [vm_compute; reflexivity|]. split; [reflexivity|].
  refine (proj1 (proj2 (generate_schedule_one_entry_per_unit
                          demo_draws demo_db _ _ _ _))).
  by vm_compute.
Defined.

Lemma flush_entries_ids next l :
  te_id <$> flush_entries next l
  = (λ i : nat, Some (next + Z.of_nat i)) <$> seq 0 (length l).
Proof.
  revert next. induction l as [|e l IH]; intros next; [done|].
  cbn [flush_entries length seq]. rewrite !fmap_cons, IH.
  cbn [te_id]. f_equal; [f_equal; lia|].
  rewrite <- (fmap_S_seq 0), <- list_fmap_compose.
  apply list_fmap_ext. intros _ i _. cbn. f_equal. lia.
Qed.

Lemma flush_entries_week_type next l :
  Forall (λ e, te_week_type e = Some "all"
               ∨ ∃ e0, e0 ∈ l ∧ te_week_type e = te_week_type e0
                       ∧ is_Some (te_week_type e0))
         (flush_entries next l).
Proof.
  revert next. induction l as [|e l IH]; intros next; [constructor|].
  cbn [flush_entries]. constructor.
  - cbn. destruct (te_week_type e) eqn:E; cbn; [|by left].
    right. exists e. split; [apply list_elem_of_here|]. rewrite E. eauto.
  - eapply Forall_impl; [apply IH|]. cbn.
    intros x [?|(e0 & ? & ? & ?)]; [by left|].
    right. exists e0. split; [by apply list_elem_of_further|done].
Qed.

Lemma run_state_week_type db st :
  run_state db st → Forall (λ e, te_week_type e = None) (timetable_entries st).
Proof.
  induction 1; [constructor|done|].
  cbn. apply Forall_app. split; [done|]. by repeat constructor.
Qed.

(** X6: a returning call of [generate_schedule] writes its result to the
    store and nothing else: the returned entries, with week type "all" and
    the next serial ids, are appended to the timetable-entry table after the
    rows that were there (the function does not clear them); every other
    table is as before. *)
Theorem generate_schedule_store_effect
    (draws : nat → nat) (db : DB) (entries : list TimetableEntry)
    (db' : DB) (log : list UnitReport) :
  generate_schedule draws db = Ok (entries, db', log) →
  db_timetable_entries db' = db_timetable_entries db ++ entries ∧
  te_id <$> entries
    = (λ i : nat, Some (db_timetable_entry_seq db + Z.of_nat i))
        <$> seq 0 (length entries) ∧
  Forall (λ e, te_week_type e = Some "all") entries ∧
  db_timetable_entry_seq db'
    = db_timetable_entry_seq db + Z.of_nat (length entries) ∧
  db_schools db' = db_schools db ∧
  db_departments db' = db_departments db ∧
  db_rooms db' = db_rooms db ∧
  db_lecturers db' = db_lecturers db ∧
  db_units db' = db_units db ∧
  db_student_groups db' = db_student_groups db ∧
  db_time_slots db' = db_time_slots db ∧
  db_time_slot_seq db' = db_time_slot_seq db.
Proof.
  intros Hgen.
  destruct (generate_schedule_run _ _ _ _ _ Hgen)
    as (st & Hrun & -> & Hcases & _).
  assert (Forall (λ e, te_week_type e = Some "all")
            (flush_entries (db_timetable_entry_seq db) (timetable_entries st)))
    as Hweek.
  { pose proof (run_state_week_type _ _ Hrun) as Hnone.
    rewrite Forall_forall in Hnone.
    eapply Forall_impl; [apply flush_entries_week_type|]. cbn.
    intros e [?|(e0 & He0 & _ & [w Hw])]; [done|].
    rewrite (Hnone e0 He0) in Hw. done. }
  rewrite flush_entries_ids, flush_entries_length.
  destruct Hcases as [(He & -> & _)|(-> & _ & _)].
  - rewrite He. apply (f_equal length) in He.
    rewrite flush_entries_length in He. rewrite He, app_nil_r.
    split_and!; try done. cbn. lia.
  - by split_and!.
Qed.

Lemma generate_schedule_store_effect_witness :
  ∃ entries db' log,
    generate_schedule demo_draws demo_db = Ok (entries, db', log) ∧
    db_timetable_entries db' = entries ∧
    te_id <$> entries = [Some 1; Some 2].
Proof.
  eexists _, _, _. split; [vm_compute; reflexivity|].
  pose proof (generate_schedule_store_effect demo_draws demo_db _ _ _
                ltac:(vm_compute; reflexivity)) as (H1 & H2 & _).
  split; [exact H1|exact H2].
Defined.

(** ** The priority order *)

Lemma priority_lt_irrefl a : priority_lt a a = false.
Proof.
  unfold priority_lt. destruct a as [[] y]; cbn;
    repeat case_bool_decide; try done; lia.
Qed.

Lemma priority_lt_asym a b : priority_lt a b = true → priority_lt b a = false.
Proof.
  unfold priority_lt. destruct a as [[] y], b as [[] z]; cbn;
    repeat case_bool_decide; try done; lia.
Qed.

Lemma priority_le_trans u v w :
  priority_le u v → priority_le v w → priority_le u w.
Proof.
  unfold priority_le, priority_lt, priority.
  destruct (unit_requires_lab u), (unit_requires_lab v),
    (unit_requires_lab w); cbn; repeat case_bool_decide; try done; lia.
Qed.

Lemma priority_le_spec u v :
  priority_le u v ↔
  (unit_requires_lab v = true → unit_requires_lab u = true) ∧
  (unit_requires_lab u = unit_requires_lab v →
   unit_year_level u ≤ unit_year_level v).
Proof.
  unfold priority_le, priority_lt, priority.
  destruct (unit_requires_lab u), (unit_requires_lab v); cbn;
    repeat case_bool_decide; split; try done; try lia; intros [H1 H2];
    try (by specialize (H1 eq_refl)); try (specialize (H2 eq_refl); lia).
Qed.

Lemma insert_unit_sorted u l :
  priority_sorted l → priority_sorted (insert_unit u l).
Proof.
  induction l as [|v l IH]; cbn [insert_unit priority_sorted].
  { intros _. by split. }
  intros [Hv Hl]. destruct (priority_lt _ _) eqn:E; cbn [priority_sorted].
  - split; [|by apply IH].
    rewrite insert_unit_perm. constructor; [|done].
    by apply priority_lt_asym.
  - split_and!; [|done..]. constructor; [done|].
    eapply Forall_impl; [exact Hv|]. intros w Hw.
    by apply (priority_le_trans u v w).
Qed.

Lemma sorted_priority_sorted units : priority_sorted (sorted units).
Proof.
  induction units as [|u units IH]; [done|]. by apply insert_unit_sorted.
Qed.

Lemma priority_sorted_lookup l i j u v :
  priority_sorted l → (i < j)%nat → l !! i = Some u → l !! j = Some v →
  priority_le u v.
Proof.
  revert i j. induction l as [|w l IH]; intros i j Hs Hij Hi Hj; [done|].
  destruct Hs as [Hw Hl]. destruct j as [|j]; [lia|]. cbn in Hj.
  destruct i as [|i]; cbn in Hi.
  - simplify_eq. rewrite Forall_forall in Hw. apply Hw.
    by eapply list_elem_of_lookup_2.
  - eapply (IH i j); eauto. lia.
Qed.

Lemma insert_unit_filter p u l :
  filter (λ v, priority v = p) (insert_unit u l)
  = filter (λ v, priority v = p) (u :: l).
Proof.
  induction l as [|v l IH]; [done|]. cbn [insert_unit].
  destruct (priority_lt _ _) eqn:E; [|done].
  rewrite filter_cons, IH, !filter_cons.
  destruct (decide (priority v = p)) as [Hv|Hv]; [|done].
  destruct (decide (priority u = p)) as [Hu|Hu]; [|done].
  rewrite Hv, Hu, priority_lt_irrefl in E. done.
Qed.

(** X7: the order in which units are processed is the stable sort by
    [(not requires_lab, year_level)]: it is a rearrangement of the units in
    which no unit that needs a lab comes after one that does not, year
    levels ascend among units of the same kind, and units with the same key
    keep the order the store returned them in. *)
Theorem sorted_units_order (units : list Unit) :
  sorted units ≡ₚ units ∧
  (∀ i j u v,
     (i < j)%nat → sorted units !! i = Some u → sorted units !! j = Some v →
     (unit_requires_lab v = true → unit_requires_lab u = true) ∧
     (unit_requires_lab u = unit_requires_lab v →
      unit_year_level u ≤ unit_year_level v)) ∧
  (∀ lab year,
     filter (λ u, unit_requires_lab u = lab ∧ unit_year_level u = year)
            (sorted units)
     = filter (λ u, unit_requires_lab u = lab ∧ unit_year_level u = year)
              units).
Proof.
  split_and!; [apply sorted_perm| |].
  - intros i j u v Hij Hi Hj. apply priority_le_spec.
    eapply priority_sorted_lookup; eauto. apply sorted_priority_sorted.
  - intros lab year.
    assert (∀ l : list Unit, filter (λ u, unit_requires_lab u = lab
                              ∧ unit_year_level u = year) l
                 = filter (λ u, priority u = (negb lab, year)) l) as Hview.
    { intros l. apply list_filter_iff. intros u. unfold priority.
      split; [by intros [-> ->]|].
      intros [= H1 H2]. split; [|done].
      destruct (unit_requires_lab u), lab; done. }
    rewrite !Hview.
    induction units as [|u units IH]; [done|]. cbn [sorted].
    by rewrite insert_unit_filter, !filter_cons, IH.
Qed.

Lemma sorted_units_order_witness :
  unit_code <$> sorted year_mix = ["COMP106"; "COMP205"] ∧ 1 ≤ 2.
Proof.
  split; [reflexivity|].
  pose proof (proj1 (proj2 (sorted_units_order year_mix)) 0%nat 1%nat _ _
                ltac:(lia) ltac:(vm_compute; reflexivity)
                ltac:(vm_compute; reflexivity)) as [_ H].
  exact (H eq_refl).
Defined.

(** ** The generator: which exceptions, and when *)






(** ** The generator: what each entry is, and what no two entries share *)

Lemma run_state_origin db st :
  run_state db st → Forall (entry_origin db st) (timetable_entries st).
Proof.
  induction 1 as [|st Hrun IH
                  |st unit room slot sg dept school Hrun IH
                     Hu Hr Hs Hsg Hdept Hschool Hty Hsty Hday Hc];
    [constructor|exact IH|].
  cbn [commit timetable_entries]. apply Forall_app. split.
  - eapply Forall_impl; [exact IH|].
    intros e (u & r & s & g & d & sc & H).
    exists u, r, s, g, d, sc.
    cbn [commit lecturer_schedule room_schedule student_schedule].
    destruct H as (?&?&?&?&?&?&?&?&?&?&?&?&?).
    split_and!; try done; try lia; by apply index_add_mono.
  - apply Forall_singleton. exists unit, room, slot, sg, dept, school.
    cbn [commit lecturer_schedule room_schedule student_schedule].
    split_and!; try done; try lia; apply index_add_here.
Qed.

Lemma run_state_keys db st :
  primary_keys db → run_state db st →
  ∀ i j e1 e2 s1 s2,
    (i < j)%nat →
    timetable_entries st !! i = Some e1 →
    timetable_entries st !! j = Some e2 →
    s1 ∈ db_time_slots db → s2 ∈ db_time_slots db →
    ts_id s1 = te_time_slot_id e1 → ts_id s2 = te_time_slot_id e2 →
    share_resource e1 e2 →
    slot_key s1 ≠ slot_key s2.
Proof.
  intros Hpk.
  induction 1 as [|st Hrun IH
                  |st unit room slot sg dept school Hrun IH
                     Hu Hr Hs Hsg Hdept Hschool Hty Hsty Hday Hc];
    [done|exact IH|].
  intros i j e1 e2 s1 s2 Hij H1 H2 Hs1 Hs2 Hid1 Hid2 Hshare.
  cbn [commit timetable_entries] in H1, H2.
  pose proof (lookup_lt_Some _ _ _ H2) as Hj.
  rewrite length_app in Hj; cbn in Hj.
  destruct (decide (j < length (timetable_entries st))%nat) as [Hjl|Hjl].
  { rewrite lookup_app_l in H1, H2 by lia. by eapply (IH i j). }
  assert (j = length (timetable_entries st)) as -> by lia.
  rewrite lookup_app_l in H1 by lia.
  rewrite list_lookup_middle in H2 by done. injection H2 as <-.
  cbn [new_entry te_time_slot_id] in Hid2.
  assert (s2 = slot) as -> by by eapply time_slot_by_id.
  pose proof (run_state_origin _ _ Hrun) as Horigin.
  rewrite Forall_forall in Horigin.
  destruct (Horigin e1 (list_elem_of_lookup_2 _ _ _ H1))
    as (u & r & s & g & _ & _ & _ & _ & Hs0 & Hb & _ & _ & _ & _ & _ & _
        & Hkl & Hkr & Hks).
  unfold booking in Hb; cbn in Hb.
  assert (s1 = s) as -> by (eapply time_slot_by_id; eauto; congruence).
  unfold conflict in Hc. cbv zeta in Hc.
  apply orb_false_iff in Hc as [Hc Hcs].
  apply orb_false_iff in Hc as [Hcl Hcr].
  apply bool_decide_eq_false in Hcl, Hcr, Hcs.
  intros Hkey. rewrite Hkey in Hkl, Hkr, Hks.
  destruct Hshare as [Hsh|[Hsh|Hsh]]; cbn in Hsh; congruence.
Qed.

Lemma flush_entries_lookup next l i e :
  flush_entries next l !! i = Some e →
  ∃ e0, l !! i = Some e0 ∧ booking e = booking e0.
Proof.
  revert next i. induction l as [|e0 l IH]; intros next i; [done|].
  destruct i as [|i]; cbn.
  - intros [= <-]. eauto.
  - apply IH.
Qed.

Lemma first_time_slot_Some db v s :
  first_time_slot db v = Some s → s ∈ db_time_slots db ∧ ts_id s = v.
Proof.
  unfold first_time_slot. intros H%head_Some_elem_of.
  by apply list_elem_of_filter in H as [? ?].
Qed.

(** X9: a run never gives one lecturer, one room or one student group two
    entries whose slots have the same day and start time, even when the two
    slots are different rows with different ids. *)
Theorem generated_schedule_keys_exclusive
    (draws : nat → nat) (db : DB) (entries : list TimetableEntry)
    (db' : DB) (log : list UnitReport) :
  primary_keys db →
  generate_schedule draws db = Ok (entries, db', log) →
  ∀ i j e1 e2 s1 s2,
    i ≠ j →
    entries !! i = Some e1 → entries !! j = Some e2 →
    first_time_slot db (te_time_slot_id e1) = Some s1 →
    first_time_slot db (te_time_slot_id e2) = Some s2 →
    te_lecturer_id e1 = te_lecturer_id e2 ∨
    te_room_id e1 = te_room_id e2 ∨
    te_student_group_id e1 = te_student_group_id e2 →
    (ts_day_of_week s1, ts_start_time s1)
    ≠ (ts_day_of_week s2, ts_start_time s2).
Proof.
  intros Hpk Hgen.
  destruct (generate_schedule_run _ _ _ _ _ Hgen) as (st & Hrun & -> & _).
  assert (∀ i j e1 e2 s1 s2,
            (i < j)%nat →
            flush_entries (db_timetable_entry_seq db) (timetable_entries st)
              !! i = Some e1 →
            flush_entries (db_timetable_entry_seq db) (timetable_entries st)
              !! j = Some e2 →
            first_time_slot db (te_time_slot_id e1) = Some s1 →
            first_time_slot db (te_time_slot_id e2) = Some s2 →
            share_resource e1 e2 →
            slot_key s1 ≠ slot_key s2) as Hlt.
  { intros i j e1 e2 s1 s2 Hij H1 H2 Hs1 Hs2 Hshare.
    apply flush_entries_lookup in H1 as (a1 & Ha1 & Hb1).
    apply flush_entries_lookup in H2 as (a2 & Ha2 & Hb2).
    apply first_time_slot_Some in Hs1 as [Hin1 Hid1].
    apply first_time_slot_Some in Hs2 as [Hin2 Hid2].
    unfold booking in Hb1, Hb2.
    eapply (run_state_keys db st Hpk Hrun i j a1 a2); eauto;
      [congruence|congruence|].
    unfold share_resource in *.
    destruct Hshare as [?|[?|?]]; [left|right; left|right; right];
      congruence. }
  intros i j e1 e2 s1 s2 Hij H1 H2 Hs1 Hs2 Hshare.
  destruct (decide (i < j)%nat).
  - by eapply (Hlt i j e1 e2).
  - intros Heq. eapply (Hlt j i e2 e1 s2 s1); eauto; [lia|].
    unfold share_resource. destruct Hshare as [?|[?|?]]; auto.
Qed.

Lemma generated_schedule_keys_exclusive_witness :
  ∃ e1 e2 db' log s1 s2,
    generate_schedule demo_draws demo_db = Ok ([e1; e2], db', log) ∧
    te_lecturer_id e1 = te_lecturer_id e2 ∧
    first_time_slot demo_db (te_time_slot_id e1) = Some s1 ∧
    first_time_slot demo_db (te_time_slot_id e2) = Some s2 ∧
    (ts_day_of_week s1, ts_start_time s1)
    ≠ (ts_day_of_week s2, ts_start_time s2).
Proof.
  eexists _, _, _, _, _, _.
  split; [vm_compute; reflexivity|]. split; [reflexivity|].
  split; [vm_compute; reflexivity|]. split; [vm_compute; reflexivity|].
  eapply (generated_schedule_keys_exclusive demo_draws demo_db _ _ _
            ltac:(apply (bool_decide_unpack _); by vm_compute)
            ltac:(vm_compute; reflexivity) 0%nat 1%nat);
    [lia|reflexivity|reflexivity|reflexivity|reflexivity|by left].
Defined.

Lemma first_time_slot_by_id db slot :
  NoDup (ts_id <$> db_time_slots db) → slot ∈ db_time_slots db →
  first_time_slot db (ts_id slot) = Some slot.
Proof.
  unfold first_time_slot. intros Hnd Hin.
  induction (db_time_slots db) as [|s l IH];
    [by apply elem_of_nil in Hin|].
  rewrite fmap_cons in Hnd. apply NoDup_cons in Hnd as [Hs Hnd].
  rewrite filter_cons. apply elem_of_cons in Hin as [->|Hin].
  - by rewrite decide_True.
  - rewrite decide_False; [by apply IH|].
    intros Heq. apply Hs. rewrite Heq. by apply list_elem_of_fmap_2.
Qed.

(** X10: every entry a run returns is put together from the store as
    follows: its lecturer is its unit's lecturer; its student group is the
    first group of the unit's department and year; its slot lies on a day
    1..5 and has the session type of the school of the unit's department,
    "spas_3h" for the school with code SPAS and "shs_2h" for any other. *)
Theorem generated_schedule_entry_origin
    (draws : nat → nat) (db : DB) (entries : list TimetableEntry)
    (db' : DB) (log : list UnitReport) :
  primary_keys db →
  generate_schedule draws db = Ok (entries, db', log) →
  ∀ e, e ∈ entries →
    ∃ unit slot sg dept school,
      first_unit db (te_unit_id e) = Some unit ∧
      first_time_slot db (te_time_slot_id e) = Some slot ∧
      te_lecturer_id e = unit_lecturer_id unit ∧
      first_student_group db (unit_department_id unit) (unit_year_level unit)
        = Some sg ∧
      te_student_group_id e = Some (sg_id sg) ∧
      first_department db (unit_department_id unit) = Some dept ∧
      first_school db (department_school_id dept) = Some school ∧
      ts_session_type slot
        = (if bool_decide (school_code school = "SPAS")
           then "spas_3h" else "shs_2h") ∧
      1 ≤ ts_day_of_week slot ≤ 5.
Proof.
  intros Hpk Hgen e He.
  destruct (generate_schedule_run _ _ _ _ _ Hgen) as (st & Hrun & -> & _).
  apply list_elem_of_lookup in He as [i Hi].
  apply flush_entries_lookup in Hi as (e0 & Hi & Hb).
  pose proof (run_state_origin _ _ Hrun) as Horigin.
  rewrite Forall_forall in Horigin.
  destruct (Horigin e0 (list_elem_of_lookup_2 _ _ _ Hi))
    as (unit & room & slot & sg & dept & school & Hu & _ & Hs & Hb0 & Hsg
        & Hdept & Hschool & _ & Hsty & Hday & _).
  rewrite Hb0 in Hb. unfold booking in Hb; cbn in Hb.
  destruct Hpk as (_ & _ & _ & _ & Hunits & _ & Hslots & _).
  exists unit, slot, sg, dept, school.
  split_and!; try done; try lia; try congruence.
  - replace (te_unit_id e) with (Some (unit_id unit)) by congruence.
    by apply (first_by_key unit_id).
  - replace (te_time_slot_id e) with (ts_id slot) by congruence.
    by apply first_time_slot_by_id.
Qed.

Lemma generated_schedule_entry_origin_witness :
  ∃ e entries db' log,
    generate_schedule demo_draws demo_db = Ok (e :: entries, db', log) ∧
    ∃ unit slot,
      first_unit demo_db (te_unit_id e) = Some unit ∧
      first_time_slot demo_db (te_time_slot_id e) = Some slot ∧
      te_lecturer_id e = unit_lecturer_id unit ∧
      ts_session_type slot = "spas_3h".
Proof.
  eexists _, _, _, _. split; [vm_compute; reflexivity|].
  destruct (generated_schedule_entry_origin demo_draws demo_db _ _ _
              ltac:(apply (bool_decide_unpack _); by vm_compute)
              ltac:(vm_compute; reflexivity)
              _ (list_elem_of_here _ _))
    as (unit & slot & sg & dept & school & Hu & Hs & Hl & _ & _ & Hd & Hsc
        & Hty & _).
  exists unit, slot. split_and!; [done..|].
  rewrite Hty. vm_compute in Hu. injection Hu as <-.
  vm_compute in Hd. injection Hd as <-.
  vm_compute in Hsc. injection Hsc as <-. reflexivity.
Defined.

(** ** The generator: a lone unit is always placed *)

Lemma conflict_initial unit room slot sg :
  conflict unit room slot sg (draw2 initial_tracking) = false.
Proof.
  unfold conflict. cbn [draw2 initial_tracking lecturer_schedule
                        room_schedule student_schedule].
  rewrite !lookup_total_empty.
  rewrite !bool_decide_eq_false_2 by apply not_elem_of_empty. done.
Qed.

Lemma place_initial draws unit sg slots rooms k :
  slots ≠ [] → rooms ≠ [] →
  (∀ s, s ∈ slots → 1 ≤ ts_day_of_week s ≤ 5) →
  ∃ room slot,
    room ∈ rooms ∧ slot ∈ slots ∧
    place draws unit sg slots rooms (S k) 0 initial_tracking
    = Ok (true, 1%nat, commit unit room slot sg (draw2 initial_tracking)).
Proof.
  intros Hs Hr Hdays. cbn [place].
  destruct (choice_nonempty slots (draws (rng_pos initial_tracking)) Hs)
    as [slot Hslot].
  destruct (choice_nonempty rooms (draws (S (rng_pos initial_tracking))) Hr)
    as [room Hroom].
  rewrite Hslot, Hroom. cbn [mbind result_bind].
  rewrite conflict_initial. cbn [negb].
  apply choice_elem in Hslot, Hroom.
  destruct (day_names_lookup (ts_day_of_week slot) (Hdays slot Hslot))
    as [name ->].
  eauto.
Qed.

(** X11: when the store holds a single unit whose student group, department
    and school resolve, at least one room of the kind the unit needs and at
    least one slot of its school's profile, with slot days in 1..5, every run
    schedules the unit at its first attempt and returns exactly one entry,
    whatever the draws. *)
Theorem generate_schedule_single_unit
    (draws : nat → nat) (db : DB) (unit : Unit) (sg : StudentGroup)
    (dept : Department) (school : School) :
  db_units db = [unit] →
  first_student_group db (unit_department_id unit) (unit_year_level unit)
    = Some sg →
  first_department db (unit_department_id unit) = Some dept →
  first_school db (department_school_id dept) = Some school →
  (if unit_requires_lab unit
   then filter (λ r, room_type r = "lab") (db_rooms db)
   else filter (λ r, room_type r = "normal") (db_rooms db)) ≠ [] →
  filter (λ ts, ts_session_type ts
                = (if bool_decide (school_code school = "SPAS")
                   then "spas_3h" else "shs_2h")) (db_time_slots db) ≠ [] →
  days_in_week db →
  ∃ e db',
    generate_schedule draws db = Ok ([e], db', [Scheduled 1]) ∧
    te_unit_id e = Some (unit_id unit) ∧
    te_student_group_id e = Some (sg_id sg).
Proof.
  intros Hunits Hsg Hdept Hschool Hrooms Hslots Hdays.
  assert (db_rooms db ≠ []) as Hr0
    by (intros E; rewrite E in Hrooms; by destruct (unit_requires_lab unit)).
  assert (db_time_slots db ≠ []) as Hs0
    by (intros E; by rewrite E in Hslots).
  assert (∃ room slot,
            schedule_unit draws db (db_rooms db) (db_time_slots db) unit
              initial_tracking
            = Ok (commit unit room slot sg (draw2 initial_tracking),
                  Scheduled 1)) as (room & slot & Hunit).
  { unfold schedule_unit. rewrite Hsg, Hdept.
    cbn [from_option mbind result_bind]. rewrite Hschool.
    cbn [from_option mbind result_bind]. cbv zeta.
    destruct (if unit_requires_lab unit then _ else _) as [|r0 rs] eqn:Er;
      [done|].
    destruct (filter _ (db_time_slots db)) as [|s0 ss] eqn:Es; [done|].
    assert (∃ k, (100 `min` (length (s0 :: ss) * length (r0 :: rs)))%nat
                 = S k) as [k ->].
    { cbn [length]. destruct (_ `min` _)%nat eqn:E; [lia|eauto]. }
    destruct (place_initial draws unit sg (s0 :: ss) (r0 :: rs) k)
      as (room & slot & _ & _ & ->);
      [done|done| |cbn [mbind result_bind]; eauto].
    intros s Hin. apply Hdays. rewrite <- Es in Hin.
    by apply list_elem_of_filter in Hin as [_ ?]. }
  unfold generate_schedule. rewrite Hunits.
  destruct (db_time_slots db) as [|s0 ss]; [done|].
  destruct (db_rooms db) as [|r0 rs]; [done|].
  cbn [sorted insert_unit schedule_units]. rewrite Hunit. cbn.
  eexists _, _. split; [reflexivity|]. done.
Qed.

Lemma generate_schedule_single_unit_witness :
  ∃ e db',
    generate_schedule (λ n, n) (generate_time_slots
      {| db_schools := db_schools demo_db;
         db_departments := db_departments demo_db;
         db_rooms := db_rooms demo_db;
         db_lecturers := db_lecturers demo_db;
         db_units := take 1 (db_units demo_db);
         db_student_groups := db_student_groups demo_db;
         db_time_slots := [];
         db_timetable_entries := [];
         db_time_slot_seq := 1;
         db_timetable_entry_seq := 1 |}).2
    = Ok ([e], db', [Scheduled 1]).
Proof.
  edestruct (generate_schedule_single_unit (λ n, n)) as (e & db' & H & _);
    [..|exists e, db'; exact H];
    [reflexivity|reflexivity|reflexivity|reflexivity|done|done|].
  intros s Hs. vm_compute in Hs.
  repeat (apply elem_of_cons in Hs as [->|Hs]; [cbn; lia|]).
  by apply elem_of_nil in Hs.
Defined.

(** ** Endpoints: grouping, and the conflict report *)

Section grouping.
Variable key : TimetableEntry → option Z.
Implicit Types (l es : list TimetableEntry) (k : option Z).

Lemma group_entries_snoc l e :
  group_entries key (l ++ [e])
  = bookings_append (key e) e (group_entries key l).
Proof. unfold group_entries. by rewrite foldl_snoc. Qed.

Lemma group_entries_keys l :
  NoDup (group_entries key l).*1 ∧
  ∀ k, k ∈ (group_entries key l).*1 ↔ ∃ e, e ∈ l ∧ key e = k.
Proof.
  induction l as [|e l [IHnd IHk]] using rev_ind.
  - split; [constructor|]. intros k; split.
    + intros H. by apply elem_of_nil in H.
    + intros (e & H & _). by apply elem_of_nil in H.
  - rewrite group_entries_snoc, bookings_append_keys.
    destruct (decide _) as [Hin|Hnin].
    + split; [done|]. intros k. rewrite IHk. split.
      * intros (e' & ? & ?). exists e'. split; [|done].
        apply elem_of_app; auto.
      * intros (e' & [?|He']%elem_of_app & ?); [by eauto|].
        apply list_elem_of_singleton in He' as ->. subst k. by apply IHk.
    + split.
      * apply NoDup_app. split_and!; [done| |apply NoDup_singleton].
        intros k Hk ->%list_elem_of_singleton. done.
      * intros k. rewrite elem_of_app, IHk, list_elem_of_singleton.
        split.
        -- intros [(e' & ? & ?)| ->].
           ++ exists e'. split; [|done]. apply elem_of_app; auto.
           ++ exists e. split; [|done]. apply elem_of_app; right.
              apply list_elem_of_here.
        -- intros (e' & [?|He']%elem_of_app & ?); [by eauto|].
           apply list_elem_of_singleton in He' as ->. by right.
Qed.

Lemma group_entries_filter l k es :
  (k, es) ∈ group_entries key l → es = filter (λ e, key e = k) l.
Proof.
  revert k es. induction l as [|e l IH] using rev_ind; intros k es Hin.
  - by apply elem_of_nil in Hin.
  - rewrite group_entries_snoc in Hin. rewrite filter_app.
    apply bookings_append_elem in Hin; [|apply group_entries_keys].
    destruct Hin as [[Hne Hin]|[[-> (es0 & Hin & ->)]|(-> & Hnin & ->)]].
    + rewrite filter_cons_False, filter_nil, app_nil_r by congruence.
      by apply IH.
    + rewrite filter_cons_True, filter_nil by done.
      f_equal. by apply IH.
    + rewrite filter_cons_True, filter_nil by done.
      replace (filter _ l) with (@nil TimetableEntry); [done|].
      symmetry. apply elem_of_nil_inv.
      intros e' [Heq He']%list_elem_of_filter. apply Hnin.
      apply group_entries_keys. eauto.
Qed.

Lemma group_entries_covers l e :
  e ∈ l → (key e, filter (λ e', key e' = key e) l) ∈ group_entries key l.
Proof.
  intros He.
  assert (key e ∈ (group_entries key l).*1) as Hk
    by (apply group_entries_keys; eauto).
  apply list_elem_of_fmap in Hk as ([k es] & Hk & Hin). simpl in Hk. subst k.
  by rewrite <- (group_entries_filter _ _ _ Hin).
Qed.

(** A key list without repetition is one where every key selects at most
    one entry. *)
Lemma NoDup_key_filter l :
  NoDup (key <$> l) ↔ ∀ k, (length (filter (λ e, key e = k) l) ≤ 1)%nat.
Proof.
  induction l as [|e l IH].
  - split; [intros _ k; cbn; lia|constructor].
  - rewrite fmap_cons, NoDup_cons, IH. split.
    + intros [Hnin Hle] k. rewrite filter_cons.
      destruct (decide (key e = k)) as [<-|]; [|apply Hle]. cbn.
      replace (filter _ l) with (@nil TimetableEntry); [cbn; lia|].
      symmetry. apply elem_of_nil_inv.
      intros e' [Heq He']%list_elem_of_filter. apply Hnin.
      rewrite <- Heq. by apply list_elem_of_fmap_2.
    + intros Hle. split.
      * intros (e' & Heq & He')%list_elem_of_fmap.
        specialize (Hle (key e)). rewrite filter_cons_True in Hle by done.
        cbn in Hle.
        assert (e' ∈ filter (λ e0, key e0 = key e) l) as Hin
          by by apply list_elem_of_filter.
        destruct (filter _ l); [by apply elem_of_nil in Hin|cbn in Hle; lia].
      * intros k. specialize (Hle k). rewrite filter_cons in Hle.
        destruct (decide _); cbn in Hle; lia.
Qed.
End grouping.

Lemma collect_nil {A B} (f : A → result (list B)) (l : list A) :
  collect f l = Ok [] ↔ ∀ x, x ∈ l → f x = Ok [].
Proof.
  induction l as [|x l IH]; cbn.
  - split; [|done]. intros _ y Hy. by apply elem_of_nil in Hy.
  - split.
    + destruct (f x) as [xs|] eqn:Ex; cbn; [|done].
      destruct (collect f l) as [ys|]; cbn; [|done].
      intros [= [-> ->]%app_eq_nil] y [->|Hy]%elem_of_cons; [done|].
      by apply IH.
    + intros H. rewrite (H x) by apply list_elem_of_here. cbn.
      rewrite (proj2 IH); [done|].
      intros y Hy. apply H. by apply list_elem_of_further.
Qed.

Lemma collect_raises {A B} (f : A → result (list B)) (l : list A) x e :
  x ∈ l → f x = Raise e → ∃ e', collect f l = Raise e'.
Proof.
  induction l as [|y l IH]; intros Hin Hx; [by apply elem_of_nil in Hin|].
  cbn. apply elem_of_cons in Hin as [<-|Hin].
  - rewrite Hx. cbn. eauto.
  - destruct (f y); cbn; [|eauto].
    destruct (IH Hin Hx) as [e' ->]. cbn. eauto.
Qed.

Lemma collect_elem {A B} (f : A → result (list B)) (l : list A) ys y :
  collect f l = Ok ys → y ∈ ys → ∃ x xs, x ∈ l ∧ f x = Ok xs ∧ y ∈ xs.
Proof.
  revert ys. induction l as [|x l IH]; intros ys; cbn.
  - intros [= <-] Hy. by apply elem_of_nil in Hy.
  - destruct (f x) as [xs|] eqn:Ex; cbn; [|done].
    destruct (collect f l) as [zs|]; cbn; [|done].
    intros [= <-] [Hy|Hy]%elem_of_app.
    + exists x, xs. split_and!; [apply list_elem_of_here|done..].
    + destruct (IH zs eq_refl Hy) as (x' & xs' & ? & ? & ?).
      exists x', xs'. split_and!; [by apply list_elem_of_further|done..].
Qed.

Lemma group_slot_bookings l :
  group_entries te_time_slot_id l = slot_bookings l.
Proof. reflexivity. Qed.

Lemma conflicting_unit_names_length db l names :
  conflicting_unit_names db l = Ok names → length names = length l.
Proof.
  revert names. induction l as [|e l IH]; intros names; cbn.
  - by intros [= <-].
  - destruct (first_unit _ _); cbn; [|done].
    destruct (conflicting_unit_names db l) as [ns|]; cbn; [|done].
    intros [= <-]. cbn. by rewrite (IH ns).
Qed.

Lemma slot_conflicts_nil db k l :
  slot_conflicts db (k, at_slot k l) = Ok []
  ↔ NoDup (te_lecturer_id <$> at_slot k l).
Proof.
  unfold slot_conflicts. cbn [fst snd].
  set (es := at_slot k l).
  case_bool_decide as Hlen.
  2:{ split; [intros _|done].
      destruct es as [|a [|b es']]; cbn in Hlen; try lia;
        [constructor|apply NoDup_singleton]. }
  destruct (has_duplicates _) eqn:Hd.
  - apply has_duplicates_true in Hd. split; [|done].
    rewrite collect_nil. intros Hnil. exfalso. apply Hd.
    apply NoDup_key_filter. intros x.
    destruct (decide (x ∈ (group_entries te_lecturer_id es).*1))
      as [Hx|Hx].
    + apply list_elem_of_fmap in Hx as ([x' g] & -> & Hin). cbn.
      pose proof (Hnil _ Hin) as Hitem.
      apply group_entries_filter in Hin as ->.
      unfold lecturer_conflict_item in Hitem. cbn [fst snd] in Hitem.
      case_bool_decide as Hg; [|lia].
      destruct (first_time_slot db k) as [ts|]; cbn [mbind result_bind from_option] in Hitem; [|done].
      destruct (day_names !! ts_day_of_week ts); cbn [mbind result_bind from_option] in Hitem; [|done].
      destruct (first_lecturer db x'); cbn [mbind result_bind from_option] in Hitem; [|done].
      destruct (conflicting_unit_names _ _); cbn [mbind result_bind from_option] in Hitem; done.
    + replace (filter _ es) with (@nil TimetableEntry); [cbn; lia|].
      symmetry. apply elem_of_nil_inv.
      intros e' [Heq He']%list_elem_of_filter. apply Hx.
      apply group_entries_keys. eauto.
  - apply has_duplicates_false in Hd. done.
Qed.

Lemma get_conflicts_nil_iff (db : DB) :
  get_conflicts db = Http200 []
  ↔ ∀ k, NoDup (te_lecturer_id <$> at_slot k (db_timetable_entries db)).
Proof.
  unfold get_conflicts. cbv zeta. rewrite group_slot_bookings.
  assert (collect (slot_conflicts db)
            (slot_bookings (db_timetable_entries db)) = Ok []
          ↔ ∀ k, NoDup (te_lecturer_id
                          <$> at_slot k (db_timetable_entries db))) as Hiff.
  { rewrite collect_nil. split.
    - intros Hnil k.
      destruct (decide (k ∈ (slot_bookings (db_timetable_entries db)).*1))
        as [Hk|Hk].
      + apply list_elem_of_fmap in Hk as ([k' es] & -> & Hin). cbn.
        pose proof (Hnil _ Hin) as Hitem.
        apply slot_bookings_at_slot in Hin as ->.
        by apply (proj1 (slot_conflicts_nil db _ _)).
      + replace (at_slot k _) with (@nil TimetableEntry); [constructor|].
        symmetry. apply elem_of_nil_inv.
        intros e [He Hin]%list_elem_of_filter. apply Hk.
        apply slot_bookings_keys. eauto.
    - intros Hnd [k es] Hin.
      apply slot_bookings_at_slot in Hin as ->.
      by apply (proj2 (slot_conflicts_nil db _ _)). }
  rewrite <- Hiff.
  destruct (collect _ _) as [cs|]; split; intros H; by simplify_eq.
Qed.

(** X12: [GET /api/timetable/conflicts] answers 200 with an empty list
    exactly when no time-slot id of the stored timetable carries a lecturer
    id twice; every conflict it does report is of type "lecturer_conflict"
    and names at least two units. *)
Theorem get_conflicts_empty_iff (db : DB) :
  (get_conflicts db = Http200 []
   ↔ ∀ k, NoDup (te_lecturer_id <$> at_slot k (db_timetable_entries db))) ∧
  (∀ conflicts c,
     get_conflicts db = Http200 conflicts → c ∈ conflicts →
     lc_type c = "lecturer_conflict" ∧
     (2 ≤ length (lc_conflicting_units c))%nat).
Proof.
  split; [apply get_conflicts_nil_iff|].
  unfold get_conflicts. cbv zeta.
  intros conflicts c Hget Hc.
  destruct (collect _ _) as [cs|] eqn:Hcol; [|done].
  injection Hget as ->.
  destruct (collect_elem _ _ _ _ Hcol Hc) as ([k es] & xs & _ & Hslot & Hx).
  unfold slot_conflicts in Hslot. cbn [fst snd] in Hslot.
  case_bool_decide; [|simplify_eq; by apply elem_of_nil in Hx].
  destruct (has_duplicates _);
    [|simplify_eq; by apply elem_of_nil in Hx].
  destruct (collect_elem _ _ _ _ Hslot Hx)
    as ([x g] & ys & _ & Hitem & Hy).
  unfold lecturer_conflict_item in Hitem. cbn [fst snd] in Hitem.
  case_bool_decide as Hg; [|simplify_eq; by apply elem_of_nil in Hy].
  destruct (first_time_slot db k) as [ts|];
    cbn [mbind result_bind from_option] in Hitem; [|done].
  destruct (day_names !! ts_day_of_week ts);
    cbn [mbind result_bind from_option] in Hitem; [|done].
  destruct (first_lecturer db x);
    cbn [mbind result_bind from_option] in Hitem; [|done].
  destruct (conflicting_unit_names _ _) as [names|] eqn:Hn;
    cbn [mbind result_bind from_option] in Hitem; [|done].
  injection Hitem as <-. apply list_elem_of_singleton in Hy as ->. cbn.
  split; [done|]. apply conflicting_unit_names_length in Hn. lia.
Qed.

Lemma get_conflicts_empty_iff_witness :
  get_conflicts clash_db
  = Http200 [ {| lc_type := "lecturer_conflict"; lc_day := "Monday";
                 lc_time := "10:30:00 - 13:30:00";
                 lc_lecturer := "Ada Byron";
                 lc_conflicting_units := ["Algorithms"; "Programming"] |} ]
  ∧ (2 ≤ 2)%nat.
Proof.
  split; [by vm_compute|].
  refine (proj2 (proj2 (get_conflicts_empty_iff clash_db) _
                   {| lc_type := "lecturer_conflict"; lc_day := "Monday";
                      lc_time := "10:30:00 - 13:30:00";
                      lc_lecturer := "Ada Byron";
                      lc_conflicting_units := ["Algorithms"; "Programming"] |}
                   _ _)).
  - by vm_compute.
  - apply list_elem_of_here.
Defined.

(** ** Endpoints: generating, then auditing *)

Lemma delete_timetable_entries_primary_keys db :
  primary_keys db → primary_keys (delete_timetable_entries db).
Proof.
  unfold primary_keys. cbn. intros (?&?&?&?&?&?&?&_).
  split_and!; try done. constructor.
Qed.

Lemma generate_schedule_no_double_booking draws db entries db' log :
  primary_keys db →
  generate_schedule draws db = Ok (entries, db', log) →
  no_double_booking entries.
Proof.
  intros Hpk Hgen.
  destruct (generate_schedule_sound db Hpk _ _ _ _ Hgen)
    as (_ & _ & st & [_ Hfree] & Hb).
  by apply (no_double_booking_booking (timetable_entries st)).
Qed.

(** X13: [POST /api/timetable/generate] replaces the stored timetable.  On
    200 the timetable-entry table holds exactly the entries of the run, with
    ids the table never held before, and the answer counts them.  On 500
    (the run raised) the table is left empty: the old timetable was deleted
    and committed before the run started. *)
Theorem generate_timetable_replaces (draws : nat → nat) (db : DB) :
  match generate_timetable draws db with
  | (Http200 body, db') =>
      ∃ entries log,
        generate_schedule draws (delete_timetable_entries db)
        = Ok (entries, db', log) ∧
        db_timetable_entries db' = entries ∧
        gen_entries_count body = length entries ∧
        te_id <$> entries
          = (λ i : nat, Some (db_timetable_entry_seq db + Z.of_nat i))
              <$> seq 0 (length entries)
  | (Http500 detail, db') =>
      db_timetable_entries db' = [] ∧
      db' = delete_timetable_entries db ∧
      ∃ e, detail = PythonError e ∧
           generate_schedule draws (delete_timetable_entries db) = Raise e
  end.
Proof.
  unfold generate_timetable. cbv zeta.
  destruct (generate_schedule draws (delete_timetable_entries db))
    as [[[entries db'] log]|e] eqn:Hgen.
  - exists entries, log.
    destruct (generate_schedule_run _ _ _ _ _ Hgen)
      as (st & _ & -> & Hcases & _).
    split_and!; [done| |done|].
    + destruct Hcases as [(He & -> & _)|(-> & _ & _)]; [by rewrite He|done].
    + by rewrite flush_entries_ids, flush_entries_length.
  - split_and!; [done|done|]. eauto.
Qed.

(** X14: after [POST /api/timetable/generate] has answered 200 on a store
    with unique primary keys, the two audits are clean:
    [GET /api/timetable/validate] answers [is_valid = true] with no
    conflicts and no warnings, and [GET /api/timetable/conflicts] answers
    with an empty list. *)
Theorem generate_then_audit
    (draws : nat → nat) (db : DB) (body : GenerateResponse) (db' : DB) :
  primary_keys db →
  generate_timetable draws db = (Http200 body, db') →
  validate_timetable db'
  = Http200 {| is_valid := true; conflicts := []; warnings := [] |} ∧
  get_conflicts db' = Http200 [].
Proof.
  intros Hpk Hgen.
  pose proof (delete_timetable_entries_primary_keys _ Hpk) as Hpk1.
  unfold generate_timetable in Hgen. cbv zeta in Hgen.
  destruct (generate_schedule draws (delete_timetable_entries db))
    as [[[entries db2] log]|e] eqn:Hrun; [|done].
  injection Hgen as _ ->.
  assert (db_timetable_entries db' = entries) as Htab.
  { destruct (generate_schedule_run _ _ _ _ _ Hrun)
      as (st & _ & -> & Hcases & _).
    destruct Hcases as [(He & -> & _)|(-> & _ & _)]; [by rewrite He|done]. }
  pose proof (generate_schedule_no_double_booking _ _ _ _ _ Hpk1 Hrun)
    as Hfree.
  split.
  - unfold validate_timetable. cbv zeta. rewrite Htab. f_equal.
    destruct (generate_schedule_sound _ Hpk1 _ _ _ _ Hrun)
      as (Hunits & Hrooms & _).
    assert (is_valid (validate_constraints db' entries) = true) as Hv.
    { apply validate_valid_iff. split; [done|].
      pose proof (generate_schedule_entries_resolve _ _ _ _ _ Hpk1 Hrun)
        as Hall.
      rewrite Forall_forall in Hall. intros e He.
      destruct (Hall e He) as (u & r & Hu & Hr & Hty).
      unfold lab_ok, first_unit, first_room. rewrite Hunits, Hrooms.
      unfold first_unit, first_room in Hu, Hr. rewrite Hu, Hr.
      intros ?? [= <-] [= <-] Hlab. by rewrite Hlab in Hty. }
    pose proof (proj1 (is_valid_iff _ _) Hv) as Hc.
    unfold validate_constraints in *. cbn [conflicts] in Hc.
    by rewrite Hc.
  - apply get_conflicts_nil_iff. rewrite Htab. intros k.
    by destruct (Hfree k).
Qed.

Lemma generate_then_audit_witness :
  ∃ body db',
    generate_timetable demo_draws clash_db = (Http200 body, db') ∧
    gen_entries_count body = 2%nat ∧
    get_conflicts db' = Http200 [].
Proof.
  eexists _, _. split; [vm_compute; reflexivity|]. split; [reflexivity|].
  refine (proj2 (generate_then_audit demo_draws clash_db _ _ _ _)).
  - apply (bool_decide_unpack _). by vm_compute.
  - by vm_compute.
Defined.

Lemma two_in_filter {A} (P : A → Prop) `{∀ x, Decision (P x)}
    (l : list A) (i j : nat) (a b : A) :
  i ≠ j → l !! i = Some a → l !! j = Some b → P a → P b →
  (1 < length (filter P l))%nat.
Proof.
  assert (∀ i j a b, (i < j)%nat → l !! i = Some a → l !! j = Some b →
            P a → P b → (1 < length (filter P l))%nat) as Hlt.
  { clear i j a b. intros i j a b Hij Ha Hb HPa HPb.
    rewrite <- (take_drop_middle l i a Ha).
    rewrite filter_app, filter_cons_True, length_app by done. cbn.
    assert (b ∈ filter P (drop (S i) l)) as Hin.
    { apply list_elem_of_filter. split; [done|].
      apply (list_elem_of_lookup_2 _ (j - S i)).
      rewrite lookup_drop. rewrite <- Hb. f_equal. lia. }
    destruct (filter P (drop (S i) l)); [by apply elem_of_nil in Hin|].
    cbn. lia. }
  intros Hij Ha Hb HPa HPb.
  destruct (decide (i < j)%nat); [by eapply (Hlt i j a b)|].
  eapply (Hlt j i b a); eauto. lia.
Qed.

Lemma conflicting_unit_names_raises db l e :
  e ∈ l → first_unit db (te_unit_id e) = None →
  conflicting_unit_names db l = Raise AttributeError.
Proof.
  induction l as [|a l IH]; intros Hin Hnone; [by apply elem_of_nil in Hin|].
  cbn [conflicting_unit_names].
  destruct (first_unit db (te_unit_id a)) as [u|] eqn:Ea;
    cbn [mbind result_bind from_option]; [|done].
  apply elem_of_cons in Hin as [->|Hin]; [congruence|].
  by rewrite IH.
Qed.

(** X15: [GET /api/timetable/conflicts] cannot report a double booking
    whose rows are missing: if two stored entries share a time-slot id and a
    lecturer id, and the slot, the lecturer or the unit of one of them is
    not in the store (a NULL id included), the endpoint answers 500. *)
Theorem get_conflicts_fails_on_dangling
    (db : DB) (i j : nat) (e1 e2 : TimetableEntry) :
  i ≠ j →
  db_timetable_entries db !! i = Some e1 →
  db_timetable_entries db !! j = Some e2 →
  te_time_slot_id e1 = te_time_slot_id e2 →
  te_lecturer_id e1 = te_lecturer_id e2 →
  first_time_slot db (te_time_slot_id e1) = None ∨
  first_lecturer db (te_lecturer_id e1) = None ∨
  first_unit db (te_unit_id e1) = None →
  ∃ e, get_conflicts db = Http500 (PythonError e).
Proof.
  intros Hij H1 H2 Hslot Hlect Hmissing.
  set (l := db_timetable_entries db) in *.
  set (k := te_time_slot_id e1) in *.
  set (x := te_lecturer_id e1) in *.
  assert (e1 ∈ l) as He1 by by eapply list_elem_of_lookup_2.
  assert (∃ e, collect (slot_conflicts db) (group_entries te_time_slot_id l)
               = Raise e) as [e He];
    [|exists e; unfold get_conflicts; cbv zeta; fold l; by rewrite He].
  assert (∃ e, slot_conflicts db (k, at_slot k l) = Raise e) as [e He].
  { unfold slot_conflicts. cbn [fst snd].
    rewrite bool_decide_eq_true_2
      by (eapply (two_in_filter _ l i j e1 e2); eauto).
    rewrite (proj2 (has_duplicates_true _))
      by (eapply (at_slot_duplicate_any te_lecturer_id l i j e1 e2); eauto).
    set (g := filter (λ e, te_lecturer_id e = x) (at_slot k l)).
    assert (e1 ∈ at_slot k l) as Hin1 by by apply list_elem_of_filter.
    assert (e1 ∈ g) as Hg1 by by apply list_elem_of_filter.
    assert (1 < length g)%nat as Hlen.
    { subst g. unfold at_slot. rewrite list_filter_filter.
      eapply (two_in_filter _ l i j e1 e2); eauto; split; congruence. }
    assert (∃ e, lecturer_conflict_item db (first_time_slot db k) (x, g)
                 = Raise e) as [e He].
    { unfold lecturer_conflict_item. cbn [fst snd].
      rewrite bool_decide_eq_true_2 by done.
      destruct (first_time_slot db k) as [ts|];
        cbn [mbind result_bind from_option]; [|eauto].
      destruct (day_names !! ts_day_of_week ts);
        cbn [mbind result_bind from_option]; [|eauto].
      destruct (first_lecturer db x) as [lect|];
        cbn [mbind result_bind from_option]; [|eauto].
      destruct Hmissing as [?|[?|Hunit]]; [done|done|].
      rewrite (conflicting_unit_names_raises db g e1) by done.
      cbn. eauto. }
    eapply collect_raises; [|exact He].
    apply (group_entries_covers te_lecturer_id (at_slot k l) e1 Hin1). }
  eapply collect_raises; [|exact He].
  apply (group_entries_covers te_time_slot_id l e1 He1).
Qed.

Lemma get_conflicts_fails_on_dangling_witness :
  ∃ e,
    get_conflicts
      {| db_schools := []; db_departments := []; db_rooms := [];
         db_lecturers := []; db_units := []; db_student_groups := [];
         db_time_slots := [];
         db_timetable_entries := [clash_a; clash_b];
         db_time_slot_seq := 1; db_timetable_entry_seq := 3 |}
    = Http500 (PythonError e).
Proof.
  refine (get_conflicts_fails_on_dangling _ 0 1 clash_a clash_b _ _ _ _ _ _);
    [lia|reflexivity|reflexivity|reflexivity|reflexivity|by left].
Defined.

(** ** Endpoints: regenerating the time slots *)

Lemma flush_time_slots_ids next l :
  ts_id <$> flush_time_slots next l
  = (λ i : nat, Some (next + Z.of_nat i)) <$> seq 0 (length l).
Proof.
  revert next. induction l as [|s l IH]; intros next; [done|].
  cbn [flush_time_slots length seq]. rewrite !fmap_cons, IH.
  cbn [ts_id]. f_equal; [f_equal; lia|].
  rewrite <- (fmap_S_seq 0), <- list_fmap_compose.
  apply list_fmap_ext. intros _ i _. cbn. f_equal. lia.
Qed.

(** X16: [POST /api/debug/regenerate-time-slots] answers 500 and leaves the
    store as it was when some timetable entry references a stored time slot.
    Otherwise it answers 200 with a count of 50 and the time-slot table
    becomes exactly the catalog of [generate_time_slots], under 50 new
    serial ids (the ids of the deleted rows are not used again); the
    timetable entries and all other tables stay. *)
Theorem regenerate_time_slots_outcome (db : DB) :
  match regenerate_time_slots db with
  | (Http200 body, db') =>
      Forall (λ e, references_time_slot db e = false)
             (db_timetable_entries db) ∧
      regen_time_slots_count body = 50%nat ∧
      catalog_row <$> db_time_slots db' = catalog_row <$> built_time_slots ∧
      ts_id <$> db_time_slots db'
        = (λ i : nat, Some (db_time_slot_seq db + Z.of_nat i)) <$> seq 0 50 ∧
      db_time_slot_seq db' = db_time_slot_seq db + 50 ∧
      db_timetable_entries db' = db_timetable_entries db ∧
      db_units db' = db_units db ∧ db_rooms db' = db_rooms db ∧
      db_lecturers db' = db_lecturers db ∧
      db_student_groups db' = db_student_groups db ∧
      db_departments db' = db_departments db ∧
      db_schools db' = db_schools db
  | (Http500 detail, db') =>
      detail = IntegrityError ∧ db' = db ∧
      Exists (λ e, references_time_slot db e = true)
             (db_timetable_entries db)
  end.
Proof.
  unfold regenerate_time_slots.
  destruct (existsb _ _) eqn:Hex.
  - split_and!; [done|done|].
    apply existsb_exists in Hex as (e & Hin & He).
    apply Exists_exists. exists e. split; [|done].
    by apply list_elem_of_In.
  - unfold generate_time_slots, add_all_time_slots. cbn [fst snd].
    cbn [db_time_slots db_time_slot_seq db_timetable_entries db_units
         db_rooms db_lecturers db_student_groups db_departments db_schools
         regen_time_slots_count].
    split_and!; try reflexivity.
    + apply Forall_forall. intros e He.
      destruct (references_time_slot db e) eqn:Er; [|done].
      assert (existsb (references_time_slot db) (db_timetable_entries db)
              = true) as Habs; [|congruence].
      apply existsb_exists. exists e. split; [|done].
      by apply list_elem_of_In.
    + rewrite app_nil_l. apply flush_time_slots_ids.
Qed.

(** X17: once [POST /api/timetable/generate] has stored at least one entry
    (on a store with unique primary keys whose time slots all have ids),
    [POST /api/debug/regenerate-time-slots] answers 500 and changes
    nothing: the new entries reference the slots it would delete. *)
Theorem regenerate_fails_after_generate
    (draws : nat → nat) (db : DB) (body : GenerateResponse) (db' : DB) :
  primary_keys db →
  (∀ s, s ∈ db_time_slots db → is_Some (ts_id s)) →
  generate_timetable draws db = (Http200 body, db') →
  gen_entries_count body ≠ 0%nat →
  regenerate_time_slots db' = (Http500 IntegrityError, db').
Proof.
  intros Hpk Hids Hgen Hcount.
  unfold generate_timetable in Hgen. cbv zeta in Hgen.
  destruct (generate_schedule draws (delete_timetable_entries db))
    as [[[entries db2] log]|e] eqn:Hrun; [|done].
  injection Hgen as <- ->. cbn in Hcount.
  destruct (generate_schedule_run _ _ _ _ _ Hrun)
    as (st & Hst & -> & Hcases & _).
  destruct Hcases as [(He & _ & _)|(-> & _ & _)];
    [by rewrite He in Hcount|].
  unfold regenerate_time_slots. cbn [add_all_entries snd db_timetable_entries
    db_time_slots delete_timetable_entries app].
  replace (existsb _ _) with true; [done|]. symmetry.
  destruct (flush_entries _ _) as [|e0 es] eqn:Ef; [done|].
  assert (flush_entries (db_timetable_entry_seq (delete_timetable_entries db))
            (timetable_entries st) !! 0%nat = Some e0) as H0
    by by rewrite Ef.
  apply flush_entries_lookup in H0 as (a & Ha & Hb).
  pose proof (run_state_origin _ _ Hst) as Horigin.
  rewrite Forall_forall in Horigin.
  destruct (Horigin a (list_elem_of_lookup_2 _ _ _ Ha))
    as (unit & room & slot & sg & _ & _ & _ & _ & Hslot & Hb0 & _).
  rewrite Hb0 in Hb. unfold booking in Hb; cbn in Hb.
  cbn [existsb]. apply orb_true_iff; left.
  unfold references_time_slot.
  replace (te_time_slot_id e0) with (ts_id slot) by congruence.
  cbn [delete_timetable_entries db_time_slots] in Hslot.
  destruct (Hids slot Hslot) as [id Hid]. rewrite Hid.
  apply bool_decide_eq_true. cbn [db_time_slots].
  rewrite <- Hid. by apply list_elem_of_fmap_2.
Qed.

Lemma regenerate_fails_after_generate_witness :
  ∃ body db',
    generate_timetable demo_draws demo_db = (Http200 body, db') ∧
    regenerate_time_slots db' = (Http500 IntegrityError, db').
Proof.
  eexists _, _. split; [vm_compute; reflexivity|].
  refine (regenerate_fails_after_generate demo_draws demo_db _ _ _ _ _ _).
  - apply (bool_decide_unpack _). by vm_compute.
  - intros s Hs. vm_compute in Hs.
    repeat (apply elem_of_cons in Hs as [->|Hs]; [by eexists|]).
    by apply elem_of_nil in Hs.
  - by vm_compute.
  - by vm_compute.
Defined.
